From Stdlib Require Import String Ascii List ZArith Bool Lia.
Import ListNotations.
Local Open Scope list_scope.
Local Open Scope string_scope.
Set Warnings "-register-all".

(** * clang-bind: the pybind11 binding generator ([scripts/generate.py])

    A shallow embedding of the class [bind] and of the function [generate],
    followed by the properties of the generator that the specification
    states.

    The AST comes from the parser as nested dictionaries.  A node is
    modelled as a value that carries all the keys the generator reads
    ([kind], [name], [element_type], [members], [depth], [line]; [column]
    is carried too, although the generator never reads it), so the
    [KeyError] of a missing key does not arise; the [KeyError] of a kind
    that the registry does not know does.  The attributes of the object are
    threaded through the functions as a record, exceptions are the second
    case of [result], and Python's limit on the depth of recursion is not
    modelled. *)

(* ================================================================== *)
(** ** Python string operations used by the generator *)

Module PyStr.

(** The double-quote character, written inside the f-strings. *)
Definition dq : string := String (ascii_of_nat 34) EmptyString.

(** [s.startswith(p)] *)
Definition startswith (s p : string) : bool := String.prefix p s.

(** [sub in s] on two strings: the substring test. *)
Fixpoint contains (s sub : string) : bool :=
  if String.prefix sub s then true
  else match s with
       | EmptyString => false
       | String _ s' => contains s' sub
       end.

(** [s.replace(old, new)] for a non-empty [old]: the occurrences are
    replaced from the left and do not overlap.  [skip] counts the
    characters of a matched occurrence still to be dropped. *)
Fixpoint replace_from (old new : string) (skip : nat) (s : string) : string :=
  match s with
  | EmptyString => EmptyString
  | String c s' =>
      match skip with
      | S k => replace_from old new k s'
      | O =>
          if String.prefix old s
          then new ++ replace_from old new (String.length old - 1) s'
          else String c (replace_from old new 0 s')
      end
  end.

Definition replace (s old new : string) : string := replace_from old new 0 s.

(** [sep.join(l)] *)
Definition join (sep : string) (l : list string) : string := String.concat sep l.

(** [s.lower()] on ASCII letters. *)
Definition lower_ascii (c : ascii) : ascii :=
  let n := nat_of_ascii c in
  if andb (Nat.leb 65 n) (Nat.leb n 90) then ascii_of_nat (n + 32) else c.

Fixpoint lower (s : string) : string :=
  match s with
  | EmptyString => EmptyString
  | String c s' => String (lower_ascii c) (lower s')
  end.

(** [s.split(sep)] for a one-character separator: [cur] holds, reversed,
    the characters of the piece being read.  The result is never empty. *)
Fixpoint rev_string (acc s : string) : string :=
  match s with
  | EmptyString => acc
  | String c s' => rev_string (String c acc) s'
  end.

Fixpoint split_from (sep : ascii) (cur : string) (s : string) : list string :=
  match s with
  | EmptyString => [rev_string EmptyString cur]
  | String c s' =>
      if Ascii.eqb c sep
      then rev_string EmptyString cur :: split_from sep EmptyString s'
      else split_from sep (String c cur) s'
  end.

Definition split (s : string) (sep : ascii) : list string :=
  split_from sep EmptyString s.

(** [x in (a, b, ...)] on a tuple of strings. *)
Definition in_tuple (x : string) (t : list string) : bool :=
  existsb (String.eqb x) t.

End PyStr.

(* ================================================================== *)
(** ** The input tree *)

(** One node of the parsed header, with the keys read by the generator. *)
Inductive AstNode : Type :=
  mkNode (kind name element_type : string) (members : list AstNode)
         (depth line column : Z).

Definition kind (n : AstNode) : string :=
  match n with mkNode k _ _ _ _ _ _ => k end.
Definition name (n : AstNode) : string :=
  match n with mkNode _ x _ _ _ _ _ => x end.
Definition element_type (n : AstNode) : string :=
  match n with mkNode _ _ e _ _ _ _ => e end.
Definition members (n : AstNode) : list AstNode :=
  match n with mkNode _ _ _ ms _ _ _ => ms end.
Definition depth (n : AstNode) : Z :=
  match n with mkNode _ _ _ _ d _ _ => d end.
Definition line (n : AstNode) : Z :=
  match n with mkNode _ _ _ _ _ l _ => l end.
Definition column (n : AstNode) : Z :=
  match n with mkNode _ _ _ _ _ _ c => c end.

(** All the nodes of a tree, the node itself first, then its subtrees from
    left to right. *)
Fixpoint subnodes (n : AstNode) : list AstNode :=
  match n with
  | mkNode _ _ _ ms _ _ _ =>
      n :: (fix go (l : list AstNode) : list AstNode :=
              match l with
              | [] => []
              | m :: l' => (subnodes m ++ go l')%list
              end) ms
  end.

(* ================================================================== *)
(** ** The state of a [bind] object *)

(** An entry of [_state_stack]. *)
Record ScopeFrame : Type := mkFrame {
  frame_kind : string;
  frame_name : string;
  frame_depth : Z
}.

(** An entry of [_skipped]: the dictionary built by [skip]. *)
Record SkippedRecord : Type := mkSkipped {
  rec_line : Z;
  rec_column : Z;
  rec_kind : string;
  rec_name : string
}.

(** The attributes of a [bind] object.  [item] is [self.item]; the
    attributes [self.kind], [self.name], [self.members] and [self.depth] are
    always assigned together with it, from its keys, and are read from it
    here.  The lists grow at their end, as with [append]. *)
Record bind : Type := mkBind {
  item : AstNode;
  _state_stack : list ScopeFrame;
  _linelist : list string;
  _skipped : list SkippedRecord;
  _inclusion_list : list string
}.

Definition self_kind (self : bind) : string := kind (item self).
Definition self_name (self : bind) : string := name (item self).
Definition self_members (self : bind) : list AstNode := members (item self).
Definition self_depth (self : bind) : Z := depth (item self).

Definition set_item (it : AstNode) (self : bind) : bind :=
  mkBind it (_state_stack self) (_linelist self) (_skipped self)
         (_inclusion_list self).
Definition set_state_stack (s : list ScopeFrame) (self : bind) : bind :=
  mkBind (item self) s (_linelist self) (_skipped self) (_inclusion_list self).
Definition set_linelist (l : list string) (self : bind) : bind :=
  mkBind (item self) (_state_stack self) l (_skipped self)
         (_inclusion_list self).
Definition set_skipped (l : list SkippedRecord) (self : bind) : bind :=
  mkBind (item self) (_state_stack self) (_linelist self) l
         (_inclusion_list self).

(** [self._linelist.append(s)] *)
Definition emit (s : string) (self : bind) : bind :=
  set_linelist (_linelist self ++ [s])%list self.

(** Exceptions the generator can raise. *)
Inductive PyError : Type :=
| KeyError (key : string)
| IndexError
| Exception (msg : string).

Inductive result (A : Type) : Type :=
| Ok (a : A)
| Raise (e : PyError).
Arguments Ok {A} a.
Arguments Raise {A} e.

Definition bind_result {A B : Type} (r : result A) (k : A -> result B)
  : result B :=
  match r with
  | Ok a => k a
  | Raise e => Raise e
  end.

Notation "x <- r ;; k" := (bind_result r (fun x => k))
  (at level 61, r at next level, right associativity).

(* ================================================================== *)
(** ** The kind registry *)

(** The functions of the class that the registry refers to. *)
Inductive Method : Type :=
| m_skip
| m_handle_namespace
| m_handle_constructor
| m_handle_inclusion_directive
| m_handle_struct_decl.

(** What is written at a key of the dictionary literal [kind_functions]:
    one of the four local names bound to [self.skip] in [__init__], or a
    method of the object. *)
Inductive Entry : Type :=
| handled_by_pybind
| handled_elsewhere
| no_need_to_handle
| unsure
| self_skip
| self_handle_namespace
| self_handle_constructor
| self_handle_inclusion_directive
| self_handle_struct_decl.

(** The function behind an entry: the four local names are all [self.skip]. *)
Definition method_of (e : Entry) : Method :=
  match e with
  | handled_by_pybind | handled_elsewhere | no_need_to_handle | unsure
  | self_skip => m_skip
  | self_handle_namespace => m_handle_namespace
  | self_handle_constructor => m_handle_constructor
  | self_handle_inclusion_directive => m_handle_inclusion_directive
  | self_handle_struct_decl => m_handle_struct_decl
  end.

(** The dictionary literal, in the order of the source. *)
Definition kind_functions_items : list (string * Entry) :=
  [ ("TRANSLATION_UNIT", no_need_to_handle);
    ("NAMESPACE", self_handle_namespace);
    ("CXX_BASE_SPECIFIER", handled_elsewhere);
    ("CXX_METHOD", handled_elsewhere);
    ("CONSTRUCTOR", self_handle_constructor);
    ("INCLUSION_DIRECTIVE", self_handle_inclusion_directive);
    ("STRUCT_DECL", self_handle_struct_decl);
    ("CLASS_DECL", self_handle_struct_decl);
    ("VAR_DECL", handled_by_pybind);
    ("PARM_DECL", handled_elsewhere);
    ("FIELD_DECL", handled_elsewhere);
    ("ANONYMOUS_UNION_DECL", handled_elsewhere);
    ("ANONYMOUS_STRUCT_DECL", handled_elsewhere);
    ("FRIEND_DECL", unsure);
    ("FUNCTION_DECL", unsure);
    ("CALL_EXPR", handled_by_pybind);
    ("UNEXPOSED_EXPR", unsure);
    ("MEMBER_REF_EXPR", unsure);
    ("DECL_REF_EXPR", unsure);
    ("ARRAY_SUBSCRIPT_EXPR", handled_by_pybind);
    ("CXX_THROW_EXPR", handled_by_pybind);
    ("INIT_LIST_EXPR", no_need_to_handle);
    ("OBJ_BOOL_LITERAL_EXPR", unsure);
    ("CXX_NULL_PTR_LITERAL_EXPR", no_need_to_handle);
    ("CXX_STATIC_CAST_EXPR", no_need_to_handle);
    ("PAREN_EXPR", handled_by_pybind);
    ("CXX_DELETE_EXPR", handled_by_pybind);
    ("INTEGER_LITERAL", unsure);
    ("FLOATING_LITERAL", unsure);
    ("STRING_LITERAL", no_need_to_handle);
    ("OBJC_STRING_LITERAL", no_need_to_handle);
    ("ALIGNED_ATTR", no_need_to_handle);
    ("BINARY_OPERATOR", no_need_to_handle);
    ("UNARY_OPERATOR", no_need_to_handle);
    ("MACRO_DEFINITION", unsure);
    ("MACRO_INSTANTIATION", unsure);
    ("NAMESPACE_REF", handled_elsewhere);
    ("TYPE_REF", handled_elsewhere);
    ("MEMBER_REF", handled_by_pybind);
    ("OVERLOADED_DECL_REF", unsure);
    ("TEMPLATE_REF", unsure);
    ("VARIABLE_REF", handled_by_pybind);
    ("COMPOUND_STMT", no_need_to_handle);
    ("RETURN_STMT", handled_by_pybind);
    ("IF_STMT", no_need_to_handle);
    ("FOR_STMT", handled_by_pybind);
    ("DECL_STMT", unsure);
    ("SWITCH_STMT", handled_by_pybind);
    ("CASE_STMT", handled_by_pybind);
    ("DEFAULT_STMT", handled_by_pybind);
    ("CXX_TRY_STMT", handled_by_pybind);
    ("CXX_CATCH_STMT", handled_by_pybind);
    ("CLASS_TEMPLATE", self_skip);
    ("TEMPLATE_NON_TYPE_PARAMETER", handled_elsewhere);
    ("FUNCTION_TEMPLATE", self_skip) ].

Fixpoint lookup (k : string) (d : list (string * Entry)) : option Entry :=
  match d with
  | [] => None
  | (k', e) :: d' => if String.eqb k k' then Some e else lookup k d'
  end.

(** [self.kind_functions[k]]: [None] stands for the [KeyError]. *)
Definition kind_functions (k : string) : option Entry :=
  lookup k kind_functions_items.

(** The policy classes of the specification, as far as the source names
    them: a method of its own emits bindings, [handled_elsewhere] delegates
    to the parent's handler, [no_need_to_handle] ignores, [unsure] needs
    review.  [handled_by_pybind] and the two entries written [self.skip]
    belong to no class of the specification. *)
Inductive Policy : Type :=
| emit_binding | delegate_to_parent | ignore | needs_review.

Definition policy_of (e : Entry) : option Policy :=
  match e with
  | self_handle_namespace | self_handle_constructor
  | self_handle_inclusion_directive | self_handle_struct_decl =>
      Some emit_binding
  | handled_elsewhere => Some delegate_to_parent
  | no_need_to_handle => Some ignore
  | unsure => Some needs_review
  | handled_by_pybind | self_skip => None
  end.

(** [self.kind_functions[self.kind] is not self.skip] (in [handle_node]).
    [is] compares the identity of two objects.  Its right operand reads the
    attribute [self.skip] anew, and reading a method from an object builds a
    new bound-method object each time; its left operand is an object that
    was built while [__init__] ran and is kept in the dictionary.  These are
    two distinct live objects whatever function they wrap, so the test holds
    for every entry of the registry, the entries bound to [skip] included. *)
Definition is_not_self_skip (stored : Entry) : bool := true.

(* ================================================================== *)
(** ** The handlers *)

(** [skip] *)
Definition skip (self : bind) : bind :=
  set_skipped
    (_skipped self ++
       [ {| rec_line := line (item self);
            rec_column := line (item self);
            rec_kind := self_kind self;
            rec_name := self_name self |} ])%list
    self.

(** [l[-1]]: [None] stands for the [IndexError] on an empty list. *)
Fixpoint py_last {A : Type} (l : list A) : option A :=
  match l with
  | [] => None
  | [x] => Some x
  | _ :: l' => py_last l'
  end.

(** [end_scope]; the second test of ["STRUCT_DECL"] is in the source. *)
Definition end_scope (self : bind) : result bind :=
  match py_last (_state_stack self) with
  | None => Raise IndexError
  | Some top =>
      if String.eqb (frame_kind top) "NAMESPACE" then Ok (emit "}" self)
      else if String.eqb (frame_kind top) "STRUCT_DECL" then Ok (emit ";" self)
      else if String.eqb (frame_kind top) "STRUCT_DECL" then Ok (emit ";" self)
      else if String.eqb (frame_kind top) "CLASS_TEMPLATE" then Ok (emit ";" self)
      else Ok self
  end.

(** [get_fields_from_anonymous] *)
Fixpoint get_fields_from_anonymous (it : AstNode) : list AstNode :=
  match it with
  | mkNode _ _ _ ms _ _ _ =>
      (fix loop (l fields : list AstNode) {struct l} : list AstNode :=
         match l with
         | [] => fields
         | sub_item :: l' =>
             loop l'
               (if String.eqb (kind sub_item) "FIELD_DECL"
                then (fields ++ [sub_item])%list
                else if PyStr.in_tuple (kind sub_item)
                          ["ANONYMOUS_UNION_DECL"; "ANONYMOUS_STRUCT_DECL"]
                then (fields ++ get_fields_from_anonymous sub_item)%list
                else fields)
         end) ms []
  end.

(** [handle_namespace] *)
Definition handle_namespace (self : bind) : bind :=
  emit ("namespace " ++ self_name self ++ "{") self.

(** The name normalisation written at three places of the source:
    [.replace("struct ", "").replace("pcl::", "")]. *)
Definition strip_struct_pcl (s : string) : string :=
  PyStr.replace (PyStr.replace s "struct " EmptyString) "pcl::" EmptyString.

(** The two member-exposure fragments and the method-exposure fragment. *)
Definition def_property_readonly (owner field : string) : string :=
  ".def_property_readonly(" ++ PyStr.dq ++ field ++ PyStr.dq ++ ", []("
    ++ owner ++ "& obj) {return obj." ++ field ++ "; })".

Definition def_readwrite (owner field : string) : string :=
  ".def_readwrite(" ++ PyStr.dq ++ field ++ PyStr.dq ++ ", &"
    ++ owner ++ "::" ++ field ++ ")".

Definition def_method (owner meth : string) : string :=
  ".def(" ++ PyStr.dq ++ meth ++ PyStr.dq ++ ", py::overload_cast<>(&"
    ++ owner ++ "::" ++ meth ++ "))".

(** The two class-registration fragments. *)
Definition py_class_with_bases (class_name bases : string) : string :=
  "py::class_<" ++ class_name ++ ", " ++ bases ++ ">(m, "
    ++ PyStr.dq ++ class_name ++ PyStr.dq ++ ")".

Definition py_class (class_name : string) : string :=
  "py::class_<" ++ class_name ++ ">(m, "
    ++ PyStr.dq ++ class_name ++ PyStr.dq ++ ")".

(** The body shared by the two loops that expose a field. *)
Definition expose_field (field : AstNode) (self : bind) : bind :=
  if String.eqb (element_type field) "ConstantArray"
  then emit (def_property_readonly (self_name self) (name field)) self
  else emit (def_readwrite (self_name self) (name field)) self.

(** [handle_struct_decl] *)
Definition handle_struct_decl (self : bind) : bind :=
  let class_name :=
    fold_left
      (fun class_name sub_item =>
         if String.eqb (kind sub_item) "TYPE_REF"
         then self_name self ++ "<" ++ strip_struct_pcl (name sub_item) ++ ">"
         else class_name)
      (self_members self) (self_name self) in
  let cxx_base_specifier_list :=
    map name
      (filter (fun sub_item => String.eqb (kind sub_item) "CXX_BASE_SPECIFIER")
              (self_members self)) in
  let self :=
    match cxx_base_specifier_list with
    | _ :: _ =>
        let cxx_base_specifier_list :=
          strip_struct_pcl (PyStr.join "," cxx_base_specifier_list) in
        emit (py_class_with_bases class_name cxx_base_specifier_list) self
    | [] => emit (py_class class_name) self
    end in
  let self := emit ".def(py::init<>())" self in
  let self :=
    fold_left
      (fun self sub_item =>
         let fields := get_fields_from_anonymous sub_item in
         fold_left (fun self field => expose_field field self) fields self)
      (self_members self) self in
  fold_left
    (fun self sub_item =>
       let self :=
         if String.eqb (kind sub_item) "FIELD_DECL"
         then expose_field sub_item self
         else self in
       if String.eqb (kind sub_item) "CXX_METHOD"
       then
         if negb (PyStr.contains "PCL_DEPRECATED" (name sub_item))
         then emit (def_method (self_name self) (name sub_item)) self
         else self
       else self)
    (self_members self) self.

(** The types that one child of a constructor adds to
    [parameter_type_list]: the body of the loop of [handle_constructor]. *)
Definition add_parameter_types (parameter_type_list : list string)
    (sub_item : AstNode) : list string :=
  if String.eqb (kind sub_item) "PARM_DECL" then
    if String.eqb (element_type sub_item) "LValueReference" then
      fold_left
        (fun parameter_type_list sub_sub_item =>
           if String.eqb (kind sub_sub_item) "TYPE_REF"
           then
             let type_ref := strip_struct_pcl (name sub_sub_item) in
             (parameter_type_list ++ [(type_ref ++ " &")%string])%list
           else parameter_type_list)
        (members sub_item) parameter_type_list
    else if String.eqb (element_type sub_item) "Elaborated" then
      snd
        (fold_left
           (fun (acc : string * list string) sub_sub_item =>
              let (namespace_ref, parameter_type_list) := acc in
              let namespace_ref :=
                if String.eqb (kind sub_sub_item) "NAMESPACE_REF"
                then namespace_ref ++ (name sub_sub_item ++ "::")
                else namespace_ref in
              let parameter_type_list :=
                if String.eqb (kind sub_sub_item) "TYPE_REF"
                then (parameter_type_list
                        ++ [(namespace_ref ++ name sub_sub_item)%string])%list
                else parameter_type_list in
              (namespace_ref, parameter_type_list))
           (members sub_item) (EmptyString, parameter_type_list))
    else if PyStr.in_tuple (element_type sub_item) ["Float"; "Int"] then
      (parameter_type_list ++ [PyStr.lower (element_type sub_item)])%list
    else (parameter_type_list ++ [element_type sub_item])%list
  else parameter_type_list.

(** The constructor-registration fragment. *)
Definition def_init (parameter_type_list : string) : string :=
  ".def(py::init<" ++ parameter_type_list ++ ">())".

(** The truth value of a string: false exactly for the empty string. *)
Definition truthy (s : string) : bool :=
  match s with
  | EmptyString => false
  | String _ _ => true
  end.

(** [handle_constructor] *)
Definition handle_constructor (self : bind) : bind :=
  let parameter_type_list :=
    fold_left add_parameter_types (self_members self) [] in
  let parameter_type_list := PyStr.join "," parameter_type_list in
  if truthy parameter_type_list
  then emit (def_init parameter_type_list) self
  else self.

(** [handle_inclusion_directive]: its body is [pass]. *)
Definition handle_inclusion_directive (self : bind) : bind := self.

(** The call [self.kind_functions[self.kind]()]. *)
Definition call (m : Method) (self : bind) : bind :=
  match m with
  | m_skip => skip self
  | m_handle_namespace => handle_namespace self
  | m_handle_constructor => handle_constructor self
  | m_handle_inclusion_directive => handle_inclusion_directive self
  | m_handle_struct_decl => handle_struct_decl self
  end.

(* ================================================================== *)
(** ** The walker *)

(** [self._state_stack.pop()] *)
Definition pop_state (self : bind) : result bind :=
  match _state_stack self with
  | [] => Raise IndexError
  | _ :: _ => Ok (set_state_stack (removelast (_state_stack self)) self)
  end.

(** [handle_node].  The loop over [self.members] runs on the list that the
    attribute holds when the loop starts, the members of [it]. *)
Fixpoint handle_node (it : AstNode) (self : bind) {struct it} : result bind :=
  match it with
  | mkNode k x _ ms d _ _ =>
      let self := set_item it self in
      let self :=
        set_state_stack
          (_state_stack self ++ [ {| frame_kind := k; frame_name := x;
                                     frame_depth := d |} ])%list self in
      match kind_functions k with
      | None => Raise (KeyError k)
      | Some f =>
          let self := call (method_of f) self in
          self <-
            (if is_not_self_skip f
             then
               (fix loop (l : list AstNode) (self : bind) {struct l}
                  : result bind :=
                  match l with
                  | [] => Ok self
                  | sub_item :: l' =>
                      self <- handle_node sub_item self ;; loop l' self
                  end) ms self
             else Ok self) ;;
          self <- end_scope self ;;
          pop_state self
      end
  end.

(** The loop of [handle_node] on its own. *)
Fixpoint handle_nodes (l : list AstNode) (self : bind) : result bind :=
  match l with
  | [] => Ok self
  | sub_item :: l' => self <- handle_node sub_item self ;; handle_nodes l' self
  end.

(** [bind.__init__]: the empty lists, then the walk from the root. *)
Definition bind_init (root : AstNode) : result bind :=
  handle_node root
    {| item := root; _state_stack := []; _linelist := []; _skipped := [];
       _inclusion_list := [] |}.

(* ================================================================== *)
(** ** The final assembly *)

Definition _initial_pybind_lines : list string :=
  [ "#include <pybind11/pybind11.h>";
    "#include <pybind11/stl.h>";
    "#include <pybind11/stl_bind.h>";
    "namespace py = pybind11;";
    "using namespace py::literals;" ].

(** The text put in front of a fragment by [handle_final]. *)
Definition module_opening (module_name : string) : string :=
  "PYBIND11_MODULE(" ++ module_name ++ ", m)" ++ "{".

(** The first loop of [handle_final]: fragments that start with
    [namespace] are passed over, the first other fragment is rewritten and
    the loop stops. *)
Fixpoint open_module (module_name : string) (linelist : list string)
  : list string :=
  match linelist with
  | [] => []
  | l :: rest =>
      if PyStr.startswith l "namespace"
      then l :: open_module module_name rest
      else (module_opening module_name ++ l) :: rest
  end.

(** [handle_final]: the returned list, and the object with its rewritten
    [_linelist]. *)
Definition handle_final (self : bind) (filename module_name : string)
  : list string * bind :=
  let final := ["#include <" ++ filename ++ ">"] in
  let final := (final ++ _initial_pybind_lines)%list in
  let self := set_linelist (open_module module_name (_linelist self)) self in
  let final := (final ++ _linelist self)%list in
  let final := (final ++ ["}"])%list in
  (final, self).

(** [generate], from the value that [utils.read_json] returned: [None]
    stands for a false value (no document, or an empty one), [Some root] for
    the dictionary of the root node. *)
Definition generate (header_info : option AstNode) : result (list string) :=
  match header_info with
  | Some root =>
      bind_object <- bind_init root ;;
      let filename := last (PyStr.split (name root) "/"%char) EmptyString in
      Ok (fst (handle_final bind_object filename "pcl"))
  | None => Raise (Exception "Empty json")
  end.

(* ================================================================== *)
(** ** What the handlers append *)

(** Appending several fragments at once. *)
Definition emit_all (ls : list string) (self : bind) : bind :=
  set_linelist (_linelist self ++ ls)%list self.

(** The fragment that exposes one field of the aggregate [owner]. *)
Definition field_fragment (owner : string) (field : AstNode) : string :=
  if String.eqb (element_type field) "ConstantArray"
  then def_property_readonly owner (name field)
  else def_readwrite owner (name field).

(** The fragments of the last loop of [handle_struct_decl] for one member:
    a field fragment for a field, a method fragment for a method whose name
    does not occur inside the text [PCL_DEPRECATED]. *)
Definition member_fragments (owner : string) (sub_item : AstNode)
  : list string :=
  ((if String.eqb (kind sub_item) "FIELD_DECL"
    then [field_fragment owner sub_item] else [])
   ++
   (if String.eqb (kind sub_item) "CXX_METHOD"
    then if negb (PyStr.contains "PCL_DEPRECATED" (name sub_item))
         then [def_method owner (name sub_item)] else []
    else []))%list.

(** The name under which [handle_struct_decl] registers the aggregate: the
    last type-reference member, if there is one, gives the argument. *)
Definition class_name_of (it : AstNode) : string :=
  match py_last (filter (fun m => String.eqb (kind m) "TYPE_REF") (members it)) with
  | Some t => name it ++ "<" ++ strip_struct_pcl (name t) ++ ">"
  | None => name it
  end.

(** The class-registration fragment: the name and the bases. *)
Definition registration_fragment (it : AstNode) : string :=
  match map name
          (filter (fun m => String.eqb (kind m) "CXX_BASE_SPECIFIER")
                  (members it)) with
  | [] => py_class (class_name_of it)
  | bases =>
      py_class_with_bases (class_name_of it)
        (strip_struct_pcl (PyStr.join "," bases))
  end.

(** All the fragments of [handle_struct_decl], group after group. *)
Definition struct_fragments (it : AstNode) : list string :=
  ([registration_fragment it; ".def(py::init<>())"]
   ++ map (field_fragment (name it))
          (flat_map get_fields_from_anonymous (members it))
   ++ flat_map (member_fragments (name it)) (members it))%list.

(** The types resolved for a namespace-qualified parameter: a namespace
    reference extends the prefix [namespace_ref], a type reference yields
    the prefix read so far followed by its name. *)
Fixpoint elaborated_types (namespace_ref : string) (l : list AstNode)
  : list string :=
  match l with
  | [] => []
  | c :: l' =>
      let namespace_ref :=
        if String.eqb (kind c) "NAMESPACE_REF"
        then namespace_ref ++ (name c ++ "::") else namespace_ref in
      ((if String.eqb (kind c) "TYPE_REF"
        then [(namespace_ref ++ name c)%string] else [])
       ++ elaborated_types namespace_ref l')%list
  end.

(** The types resolved for one member of a constructor node. *)
Definition resolved_types (sub_item : AstNode) : list string :=
  if String.eqb (kind sub_item) "PARM_DECL" then
    if String.eqb (element_type sub_item) "LValueReference" then
      map (fun t => strip_struct_pcl (name t) ++ " &")
          (filter (fun c => String.eqb (kind c) "TYPE_REF") (members sub_item))
    else if String.eqb (element_type sub_item) "Elaborated" then
      elaborated_types EmptyString (members sub_item)
    else if PyStr.in_tuple (element_type sub_item) ["Float"; "Int"] then
      [PyStr.lower (element_type sub_item)]
    else [element_type sub_item]
  else [].

(** The fragment of [handle_constructor], if any. *)
Definition constructor_fragments (it : AstNode) : list string :=
  let joined := PyStr.join "," (flat_map resolved_types (members it)) in
  if truthy joined then [def_init joined] else [].

(* ================================================================== *)
(** ** What the walk of a tree appends *)

(** The fragment appended by [end_scope] for a frame of kind [k]. *)
Definition closing_fragment (k : string) : list string :=
  if String.eqb k "NAMESPACE" then ["}"]
  else if String.eqb k "STRUCT_DECL" then [";"]
  else if String.eqb k "CLASS_TEMPLATE" then [";"]
  else [].

(** The fragments appended by the handler of a node. *)
Definition handler_fragments (it : AstNode) : list string :=
  match option_map method_of (kind_functions (kind it)) with
  | Some m_handle_namespace => ["namespace " ++ name it ++ "{"]
  | Some m_handle_constructor => constructor_fragments it
  | Some m_handle_struct_decl => struct_fragments it
  | Some m_skip | Some m_handle_inclusion_directive | None => []
  end.

(** The record appended by the handler of a node, if it is [skip]. *)
Definition handler_skipped (it : AstNode) : list SkippedRecord :=
  match option_map method_of (kind_functions (kind it)) with
  | Some m_skip =>
      [ {| rec_line := line it; rec_column := line it;
           rec_kind := kind it; rec_name := name it |} ]
  | _ => []
  end.

(** The fragments of a whole subtree: those of the handler, those of the
    members from left to right, then the closing fragment. *)
Fixpoint fragments (it : AstNode) : list string :=
  match it with
  | mkNode k _ _ ms _ _ _ =>
      (handler_fragments it
       ++ (fix go (l : list AstNode) : list string :=
             match l with
             | [] => []
             | m :: l' => (fragments m ++ go l')%list
             end) ms
       ++ closing_fragment k)%list
  end.

(** The records of a whole subtree. *)
Fixpoint skipped_records (it : AstNode) : list SkippedRecord :=
  match it with
  | mkNode _ _ _ ms _ _ _ =>
      (handler_skipped it
       ++ (fix go (l : list AstNode) : list SkippedRecord :=
             match l with
             | [] => []
             | m :: l' => (skipped_records m ++ go l')%list
             end) ms)%list
  end.

(** Every node of the tree has a kind of the registry. *)
Definition registered (n : AstNode) : bool :=
  match kind_functions (kind n) with Some _ => true | None => false end.

Definition all_registered (it : AstNode) : bool :=
  forallb registered (subnodes it).

(** [extends self self' ls rs]: [self'] is [self] with the fragments [ls]
    and the records [rs] appended, and the same stack. *)
Definition extends (self self' : bind) (ls : list string)
    (rs : list SkippedRecord) : Prop :=
  _state_stack self' = _state_stack self
  /\ _linelist self' = (_linelist self ++ ls)%list
  /\ _skipped self' = (_skipped self ++ rs)%list
  /\ _inclusion_list self' = _inclusion_list self.

(** The frame pushed on entry to a node. *)
Definition frame_of (it : AstNode) : ScopeFrame :=
  {| frame_kind := kind it; frame_name := name it; frame_depth := depth it |}.

(** The object after the first two steps of [handle_node]. *)
Definition enter (it : AstNode) (self : bind) : bind :=
  set_state_stack (_state_stack self ++ [frame_of it])%list (set_item it self).

(** The first line of the output. *)
Definition include_line (filename : string) : string :=
  "#include <" ++ filename ++ ">".

(** The list returned by [handle_final] for the fragments [ls]. *)
Definition assemble (filename module_name : string) (ls : list string)
  : list string :=
  ((include_line filename :: _initial_pybind_lines)
     ++ open_module module_name ls ++ ["}"])%list.

(** The file name that [generate] passes on: what follows the last [/]. *)
Definition filename_of (root : AstNode) : string :=
  last (PyStr.split (name root) "/"%char) EmptyString.

(* ================================================================== *)
(** ** Concrete trees *)

Module Trees.

(** The root of a header [file.hpp] with the given declarations. *)
Definition unit_of (ms : list AstNode) : AstNode :=
  mkNode "TRANSLATION_UNIT" "/tmp/file.hpp" EmptyString ms 0 0 0.

(** [class A {};] and [struct A {};] *)
Definition class_A : AstNode :=
  mkNode "CLASS_DECL" "A" EmptyString [] 1 1 7.
Definition struct_A : AstNode :=
  mkNode "STRUCT_DECL" "A" EmptyString [] 1 1 8.

(** [enum E {};]: the registry has no key [ENUM_DECL]. *)
Definition enum_E : AstNode :=
  mkNode "ENUM_DECL" "E" EmptyString [] 1 1 6.

(** A friend declaration at line 3, column 7. *)
Definition friend_f : AstNode :=
  mkNode "FRIEND_DECL" "f" EmptyString [] 1 3 7.

(** [struct S { Foo x; };]: the field has a type reference as member. *)
Definition field_x_of_Foo : AstNode :=
  mkNode "FIELD_DECL" "x" "Record"
    [mkNode "TYPE_REF" "struct Foo" "Record" [] 3 2 12] 2 2 16.
Definition struct_S_with_Foo : AstNode :=
  mkNode "STRUCT_DECL" "S" EmptyString [field_x_of_Foo] 1 1 8.

(** [inline void f() { struct L {}; }]: a struct declared in the body of
    a function. *)
Definition struct_L : AstNode :=
  mkNode "STRUCT_DECL" "L" EmptyString [] 4 1 26.
Definition function_f : AstNode :=
  mkNode "FUNCTION_DECL" "f" "FunctionProto"
    [mkNode "COMPOUND_STMT" EmptyString EmptyString
       [mkNode "DECL_STMT" EmptyString EmptyString [struct_L] 3 1 19]
       2 1 17]
    1 1 13.

(** [struct S { union { struct { int a; int b; }; }; };] *)
Definition struct_S_anonymous : AstNode :=
  mkNode "STRUCT_DECL" "S" EmptyString
    [mkNode "ANONYMOUS_UNION_DECL" EmptyString EmptyString
       [mkNode "ANONYMOUS_STRUCT_DECL" EmptyString EmptyString
          [mkNode "FIELD_DECL" "a" "Int" [] 4 1 33;
           mkNode "FIELD_DECL" "b" "Int" [] 4 1 40] 3 1 20] 2 1 12]
    1 1 8.

(** [struct S { struct T { int x; }; };]: a named struct inside a struct. *)
Definition struct_T : AstNode :=
  mkNode "STRUCT_DECL" "T" EmptyString
    [mkNode "FIELD_DECL" "x" "Int" [] 3 1 27] 2 1 19.
Definition struct_S_nested : AstNode :=
  mkNode "STRUCT_DECL" "S" EmptyString [struct_T] 1 1 8.

(** A struct with one method of the given name, declared at line 2. *)
Definition method_named (x : string) : AstNode :=
  mkNode "CXX_METHOD" x "FunctionProto" [] 2 2 8.
Definition struct_S_method (x : string) : AstNode :=
  mkNode "STRUCT_DECL" "S" EmptyString [method_named x] 1 1 8.

(** [struct S { void m(); int f; };]: the method comes first. *)
Definition struct_S_method_then_field : AstNode :=
  mkNode "STRUCT_DECL" "S" EmptyString
    [mkNode "CXX_METHOD" "m" "FunctionProto" [] 2 2 8;
     mkNode "FIELD_DECL" "f" "Int" [] 2 3 7]
    1 1 8.

(** [struct S { union { int a; }; void m(); int f; };] *)
Definition struct_S_union_method_field : AstNode :=
mkNode "STRUCT_DECL" "S" EmptyString
  [mkNode "ANONYMOUS_UNION_DECL" EmptyString EmptyString
     [mkNode "FIELD_DECL" "a" "Int" [] 3 2 17] 2 2 3;
   mkNode "CXX_METHOD" "m" "FunctionProto" [] 2 3 8;
   mkNode "FIELD_DECL" "f" "Int" [] 2 4 7]
  1 1 8.



End Trees.

(** A fresh object whose current item is [it], as a handler finds it. *)
Definition at_item (it : AstNode) : bind :=
  {| item := it; _state_stack := [frame_of it]; _linelist := [];
     _skipped := []; _inclusion_list := [] |}.

(** The fragments and the records after [bind(root)]. *)
Definition walk_lines (root : AstNode) : option (list string) :=
  match bind_init root with
  | Ok obj => Some (_linelist obj)
  | Raise _ => None
  end.

Definition walk_skipped (root : AstNode) : option (list SkippedRecord) :=
  match bind_init root with
  | Ok obj => Some (_skipped obj)
  | Raise _ => None
  end.

(* ================================================================== *)
(** ** The flattening and the order of the specification *)

(** What one member contributes to [get_fields_from_anonymous]. *)
Definition fields_under (sub_item : AstNode) : list AstNode :=
  if String.eqb (kind sub_item) "FIELD_DECL" then [sub_item]
  else if PyStr.in_tuple (kind sub_item)
            ["ANONYMOUS_UNION_DECL"; "ANONYMOUS_STRUCT_DECL"]
  then get_fields_from_anonymous sub_item
  else [].

(** An anonymous union or an anonymous struct. *)
Definition is_anonymous_aggregate (n : AstNode) : bool :=
  PyStr.in_tuple (kind n) ["ANONYMOUS_UNION_DECL"; "ANONYMOUS_STRUCT_DECL"].

(** The flattening finds fields below the anonymous unions and structs
    among the members only: below every other member
    [get_fields_from_anonymous] collects nothing. *)
Definition flattening_only_anonymous (it : AstNode) : bool :=
  forallb
    (fun m =>
       orb (is_anonymous_aggregate m)
           (match get_fields_from_anonymous m with
            | [] => true
            | _ :: _ => false
            end))
    (members it).

(** The order of the fragments as the specification words it: the
    registration, the default constructor, the flattened fields, then all
    the direct fields, then all the methods. *)
Definition struct_fragments_fields_first (it : AstNode) : list string :=
  ([registration_fragment it; ".def(py::init<>())"]
   ++ map (field_fragment (name it))
          (flat_map get_fields_from_anonymous (members it))
   ++ map (field_fragment (name it))
          (filter (fun m => String.eqb (kind m) "FIELD_DECL") (members it))
   ++ flat_map
        (fun m =>
           if negb (PyStr.contains "PCL_DEPRECATED" (name m))
           then [def_method (name it) (name m)] else [])
        (filter (fun m => String.eqb (kind m) "CXX_METHOD") (members it)))%list.

(* ================================================================== *)
(** ** The module opening *)

(** The test of the first loop of [handle_final]. *)
Definition starts_with_namespace (l : string) : bool :=
  PyStr.startswith l "namespace".

(** A line that begins with the text put in front by [handle_final]. *)
Definition has_module_opening (l : string) : bool :=
  PyStr.startswith l "PYBIND11_MODULE(".

(** The object that [bind] leaves for a header without declarations. *)
Definition after_empty_unit : bind :=
  {| item := Trees.unit_of []; _state_stack := []; _linelist := [];
     _skipped := [ {| rec_line := 0; rec_column := 0;
                      rec_kind := "TRANSLATION_UNIT";
                      rec_name := "/tmp/file.hpp" |} ];
     _inclusion_list := [] |}.

(* ================================================================== *)
(** ** The balance of the output *)

(** The scope tokens of the output: the [{] of the module declaration and
    of a namespace, the opening of an aggregate registration, and the two
    closing fragments. *)
Inductive ScopeToken : Type :=
| open_brace
| open_aggregate
| close_brace
| close_semicolon.

(** [s] ends with the character [c]. *)
Fixpoint ends_with (c : ascii) (s : string) : bool :=
  match s with
  | EmptyString => false
  | String a EmptyString => Ascii.eqb a c
  | String _ s' => ends_with c s'
  end.

(** The text after the first [{] of a line. *)
Fixpoint after_brace (s : string) : string :=
  match s with
  | EmptyString => EmptyString
  | String a s' => if Ascii.eqb a "{"%char then s' else after_brace s'
  end.

(** The token of a fragment as the handlers and [end_scope] append it. *)
Definition fragment_tokens (l : string) : list ScopeToken :=
  if String.eqb l "}" then [close_brace]
  else if String.eqb l ";" then [close_semicolon]
  else if andb (PyStr.startswith l "namespace ") (ends_with "{"%char l)
  then [open_brace]
  else if PyStr.startswith l "py::class_<" then [open_aggregate]
  else [].

(** The tokens of a line of the output: a line with the module opening has
    the [{] of the module, then the token of the fragment behind it. *)
Definition line_tokens (l : string) : list ScopeToken :=
  if has_module_opening l
  then open_brace :: fragment_tokens (after_brace l)
  else fragment_tokens l.

Definition output_tokens (out : list string) : list ScopeToken :=
  flat_map line_tokens out.

Definition is_open (t : ScopeToken) : bool :=
  match t with
  | open_brace | open_aggregate => true
  | close_brace | close_semicolon => false
  end.

Definition count_open (ts : list ScopeToken) : nat :=
  length (filter is_open ts).
Definition count_close (ts : list ScopeToken) : nat :=
  length (filter (fun t => negb (is_open t)) ts).

(** Every closing token closes the scope opened last: [}] a brace, [;] an
    aggregate; at the end no scope is left open. *)
Fixpoint closes_in_order (open : list ScopeToken) (ts : list ScopeToken)
  : bool :=
  match ts with
  | [] => match open with [] => true | _ :: _ => false end
  | open_brace :: ts' => closes_in_order (open_brace :: open) ts'
  | open_aggregate :: ts' => closes_in_order (open_aggregate :: open) ts'
  | close_brace :: ts' =>
      match open with
      | open_brace :: open' => closes_in_order open' ts'
      | _ => false
      end
  | close_semicolon :: ts' =>
      match open with
      | open_aggregate :: open' => closes_in_order open' ts'
      | _ => false
      end
  end.

Definition balanced (out : list string) : bool :=
  andb (Nat.eqb (count_open (output_tokens out))
                (count_close (output_tokens out)))
       (closes_in_order [] (output_tokens out)).

(** The tokens of what [generate] returns. *)
Definition generated_tokens (root : AstNode) : option (list ScopeToken) :=
  match generate (Some root) with
  | Ok out => Some (output_tokens out)
  | Raise _ => None
  end.

(** No node of the tree is a class declaration or a class template: the
    kinds for which what is opened and what [end_scope] closes differ. *)
Definition closes_its_scope (n : AstNode) : bool :=
  andb (negb (String.eqb (kind n) "CLASS_DECL"))
       (negb (String.eqb (kind n) "CLASS_TEMPLATE")).

Definition closes_every_scope (it : AstNode) : bool :=
  forallb closes_its_scope (subnodes it).

(** The tokens of the fragments of a tree. *)
Definition tree_tokens (it : AstNode) : list ScopeToken :=
  flat_map fragment_tokens (fragments it).

(** A run of tokens that closes all it opens, in order: read in front of
    any other tokens it leaves the open scopes as they were. *)
Definition well_nested (w : list ScopeToken) : Prop :=
  forall open rest,
    closes_in_order open (w ++ rest)%list = closes_in_order open rest.

(* ================================================================== *)
(** ** Nodes, records and counts of a whole tree *)

(** The handler of the node is [skip]. *)
Definition is_skip_node (n : AstNode) : bool :=
  match option_map method_of (kind_functions (kind n)) with
  | Some m_skip => true
  | _ => false
  end.

(** The record that [skip] builds for a node. *)
Definition record_of (n : AstNode) : SkippedRecord :=
  {| rec_line := line n; rec_column := line n;
     rec_kind := kind n; rec_name := name n |}.

(** The kind of the first node, in document order, that the registry does
    not know. *)
Definition first_unregistered (root : AstNode) : option string :=
  option_map kind (find (fun n => negb (registered n)) (subnodes root)).

(** The node that the walk of a tree visits last. *)
Definition last_visited (it : AstNode) : AstNode :=
  last (subnodes it) it.

(** The object that a walk returns, or [self] if the walk raises. *)
Definition walked (it : AstNode) (self : bind) : bind :=
  match handle_node it self with
  | Ok self' => self'
  | Raise _ => self
  end.

(** The kinds whose handler can append a fragment. *)
Definition has_emitting_kind (n : AstNode) : bool :=
  PyStr.in_tuple (kind n)
    ["NAMESPACE"; "STRUCT_DECL"; "CLASS_DECL"; "CONSTRUCTOR"].

(** The opening fragment of a namespace node. *)
Definition namespace_line (n : AstNode) : string :=
  "namespace " ++ name n ++ "{".

Definition is_namespace_node (n : AstNode) : bool :=
  String.eqb (kind n) "NAMESPACE".

(** A struct or a class declaration. *)
Definition is_aggregate_node (n : AstNode) : bool :=
  orb (String.eqb (kind n) "STRUCT_DECL") (String.eqb (kind n) "CLASS_DECL").

(** The fragment of the default constructor, and a registration fragment. *)
Definition is_default_constructor (l : string) : bool :=
  String.eqb l ".def(py::init<>())".

Definition is_registration (l : string) : bool :=
  PyStr.startswith l "py::class_<".

(** The object of [bind.__init__] before the walk. *)
Definition fresh (root : AstNode) : bind :=
  {| item := root; _state_stack := []; _linelist := []; _skipped := [];
     _inclusion_list := [] |}.

(** The character [c] occurs in [s]. *)
Fixpoint has_char (c : ascii) (s : string) : bool :=
  match s with
  | EmptyString => false
  | String a s' => orb (Ascii.eqb a c) (has_char c s')
  end.

(** A line of the output and the fragment it comes from: the same text, or
    the fragment behind the module opening. *)
Definition same_or_opened (module_name : string) (out fragment : string)
  : Prop :=
  out = fragment \/ out = module_opening module_name ++ fragment.

(** No text occurs twice in the list. *)
Fixpoint distinct (l : list string) : bool :=
  match l with
  | [] => true
  | a :: l' => andb (negb (existsb (String.eqb a) l')) (distinct l')
  end.

(* ================================================================== *)
(** * Properties *)

(* ================================================================== *)
(** ** What the handlers append: the loops in closed form *)

(** Induction on trees, with the hypothesis available for every member. *)
Lemma AstNode_tree_ind (P : AstNode -> Prop) :
  (forall k x e ms d l c, Forall P ms -> P (mkNode k x e ms d l c)) ->
  forall n, P n.
Proof.
  intro step.
  fix self 1.
  intros [k x e ms d l c].
  apply step.
  induction ms as [|m ms' IH]; constructor.
  - apply self.
  - exact IH.
Qed.

Lemma emit_as_emit_all (s : string) (self : bind) :
  emit s self = emit_all [s] self.
Proof. reflexivity. Qed.

Lemma emit_all_nil (self : bind) : emit_all [] self = self.
Proof.
  destruct self as [it st ll sk inc].
  unfold emit_all, set_linelist; simpl.
  now rewrite app_nil_r.
Qed.

Lemma emit_all_app (l1 l2 : list string) (self : bind) :
  emit_all l2 (emit_all l1 self) = emit_all (l1 ++ l2)%list self.
Proof.
  unfold emit_all, set_linelist; simpl.
  now rewrite app_assoc.
Qed.

Lemma item_emit_all (ls : list string) (self : bind) :
  item (emit_all ls self) = item self.
Proof. reflexivity. Qed.

(** A loop whose body appends fragments that depend on the current item
    only appends the fragments of all its rounds, in order. *)
Lemma fold_left_emit_all {A : Type} (step : bind -> A -> bind)
    (frags : AstNode -> A -> list string) :
  (forall self a, step self a = emit_all (frags (item self) a) self) ->
  forall l self,
    fold_left step l self = emit_all (flat_map (frags (item self)) l) self.
Proof.
  intros Hstep l.
  induction l as [|a l IH]; intro self; simpl.
  - now rewrite emit_all_nil.
  - rewrite IH, Hstep, emit_all_app.
    reflexivity.
Qed.

Lemma expose_field_emits (field : AstNode) (self : bind) :
  expose_field field self
  = emit_all [field_fragment (self_name self) field] self.
Proof.
  unfold expose_field, field_fragment.
  now destruct (String.eqb (element_type field) "ConstantArray").
Qed.

Lemma py_last_cons {A : Type} (a : A) (l : list A) :
  exists z, py_last (a :: l) = Some z.
Proof.
  revert a.
  induction l as [|b l IH]; intro a.
  - now exists a.
  - destruct (IH b) as [z Hz]. exists z. exact Hz.
Qed.

Lemma py_last_app {A : Type} (l : list A) (a : A) :
  py_last (l ++ [a])%list = Some a.
Proof.
  induction l as [|b l IH]; [reflexivity|].
  simpl. rewrite IH.
  now destruct (l ++ [a])%list eqn:E; [destruct l; discriminate|].
Qed.

Lemma class_name_loop (x : string) (ms : list AstNode) (acc : string) :
  fold_left
    (fun class_name sub_item =>
       if String.eqb (kind sub_item) "TYPE_REF"
       then x ++ "<" ++ strip_struct_pcl (name sub_item) ++ ">"
       else class_name) ms acc
  = match py_last (filter (fun m => String.eqb (kind m) "TYPE_REF") ms) with
    | Some t => x ++ "<" ++ strip_struct_pcl (name t) ++ ">"
    | None => acc
    end.
Proof.
  revert acc.
  induction ms as [|m ms IH]; intro acc; simpl; [reflexivity|].
  rewrite IH.
  destruct (String.eqb (kind m) "TYPE_REF"); [|reflexivity].
  simpl.
  destruct (filter (fun m0 => String.eqb (kind m0) "TYPE_REF") ms) as [|t ts] eqn:E;
    [reflexivity|].
  change (py_last (m :: t :: ts)) with (py_last (t :: ts)).
  destruct (py_last_cons t ts) as [z ->].
  reflexivity.
Qed.

Lemma handle_struct_decl_emits (self : bind) :
  handle_struct_decl self = emit_all (struct_fragments (item self)) self.
Proof.
  unfold handle_struct_decl, struct_fragments.
  rewrite class_name_loop.
  rewrite (fold_left_emit_all _ (fun it => member_fragments (name it))).
  2:{ intros s a. cbv beta zeta. unfold member_fragments.
      destruct (String.eqb (kind a) "FIELD_DECL");
        destruct (String.eqb (kind a) "CXX_METHOD");
        try destruct (negb (PyStr.contains "PCL_DEPRECATED" (name a)));
        rewrite ?expose_field_emits, ?emit_as_emit_all, ?emit_all_app;
        simpl; rewrite ?emit_all_nil; reflexivity. }
  rewrite (fold_left_emit_all _
             (fun it sub_item =>
                map (field_fragment (name it))
                    (get_fields_from_anonymous sub_item))).
  2:{ intros s a. cbv beta zeta.
      rewrite (fold_left_emit_all _ (fun it f => [field_fragment (name it) f])).
      2:{ intros s' f. apply expose_field_emits. }
      f_equal; clear; induction (get_fields_from_anonymous a); simpl; congruence. }
  assert (Hreg :
    match map name (filter (fun sub_item => String.eqb (kind sub_item) "CXX_BASE_SPECIFIER")
                           (self_members self)) with
    | [] => emit (py_class (class_name_of (item self))) self
    | _ :: _ =>
        emit (py_class_with_bases (class_name_of (item self))
                (strip_struct_pcl
                   (PyStr.join ","
                      (map name
                         (filter (fun sub_item => String.eqb (kind sub_item) "CXX_BASE_SPECIFIER")
                                 (self_members self)))))) self
    end = emit_all [registration_fragment (item self)] self).
  { unfold registration_fragment, self_members.
    now destruct (map name _). }
  unfold class_name_of in Hreg. unfold self_members, self_name in *.
  rewrite Hreg. clear Hreg.
  rewrite !emit_as_emit_all, !emit_all_app, !item_emit_all.
  f_equal. simpl. f_equal. f_equal. f_equal.
  clear. induction (members (item self)) as [|m ms IH]; simpl; [reflexivity|].
  now rewrite map_app, IH.
Qed.

Lemma elaborated_loop (cs : list AstNode) (ns : string) (acc : list string) :
  snd
    (fold_left
       (fun (acc : string * list string) sub_sub_item =>
          let (namespace_ref, parameter_type_list) := acc in
          let namespace_ref :=
            if String.eqb (kind sub_sub_item) "NAMESPACE_REF"
            then namespace_ref ++ (name sub_sub_item ++ "::")
            else namespace_ref in
          let parameter_type_list :=
            if String.eqb (kind sub_sub_item) "TYPE_REF"
            then (parameter_type_list
                    ++ [(namespace_ref ++ name sub_sub_item)%string])%list
            else parameter_type_list in
          (namespace_ref, parameter_type_list))
       cs (ns, acc))
  = (acc ++ elaborated_types ns cs)%list.
Proof.
  revert ns acc.
  induction cs as [|c cs IH]; intros ns acc; simpl; [now rewrite app_nil_r|].
  rewrite IH.
  destruct (String.eqb (kind c) "TYPE_REF"); simpl; [|reflexivity].
  now rewrite <- app_assoc.
Qed.

Lemma add_parameter_types_appends (acc : list string) (sub_item : AstNode) :
  add_parameter_types acc sub_item = (acc ++ resolved_types sub_item)%list.
Proof.
  unfold add_parameter_types, resolved_types.
  destruct (String.eqb (kind sub_item) "PARM_DECL"); [|now rewrite app_nil_r].
  destruct (String.eqb (element_type sub_item) "LValueReference").
  { generalize (members sub_item) as cs. intro cs. revert acc.
    induction cs as [|c cs IH]; intro acc; simpl; [now rewrite app_nil_r|].
    rewrite IH.
    destruct (String.eqb (kind c) "TYPE_REF"); simpl; [|reflexivity].
    now rewrite <- app_assoc. }
  destruct (String.eqb (element_type sub_item) "Elaborated"); [|
    now destruct (PyStr.in_tuple (element_type sub_item) ["Float"; "Int"])].
  apply elaborated_loop.
Qed.

Lemma parameter_type_loop (ms : list AstNode) (acc : list string) :
  fold_left add_parameter_types ms acc
  = (acc ++ flat_map resolved_types ms)%list.
Proof.
  revert acc.
  induction ms as [|m ms IH]; intro acc; simpl; [now rewrite app_nil_r|].
  now rewrite IH, add_parameter_types_appends, <- app_assoc.
Qed.

Lemma handle_constructor_emits (self : bind) :
  handle_constructor self = emit_all (constructor_fragments (item self)) self.
Proof.
  unfold handle_constructor, constructor_fragments, self_members.
  rewrite parameter_type_loop. simpl.
  destruct (truthy _); [reflexivity | now rewrite emit_all_nil].
Qed.

(* ================================================================== *)
(** ** The walk through a tree *)

Lemma subnodes_eq (it : AstNode) :
  subnodes it = it :: flat_map subnodes (members it).
Proof.
  now destruct it.
Qed.

Lemma fragments_eq (it : AstNode) :
  fragments it
  = (handler_fragments it ++ flat_map fragments (members it)
     ++ closing_fragment (kind it))%list.
Proof.
  now destruct it.
Qed.

Lemma skipped_records_eq (it : AstNode) :
  skipped_records it
  = (handler_skipped it ++ flat_map skipped_records (members it))%list.
Proof.
  now destruct it.
Qed.

Lemma extends_refl (self : bind) : extends self self [] [].
Proof. unfold extends. now rewrite !app_nil_r. Qed.

Lemma extends_trans (a b c : bind) ls1 rs1 ls2 rs2 :
  extends a b ls1 rs1 -> extends b c ls2 rs2 ->
  extends a c (ls1 ++ ls2)%list (rs1 ++ rs2)%list.
Proof.
  intros (S1 & L1 & K1 & I1) (S2 & L2 & K2 & I2).
  unfold extends.
  rewrite S2, L2, K2, I2, S1, L1, K1, I1, !app_assoc.
  auto.
Qed.

Lemma emit_all_extends (ls : list string) (self : bind) :
  extends self (emit_all ls self) ls [].
Proof. unfold extends; simpl. now rewrite app_nil_r. Qed.

Lemma call_extends (f : Entry) (self : bind) :
  kind_functions (kind (item self)) = Some f ->
  extends self (call (method_of f) self)
          (handler_fragments (item self)) (handler_skipped (item self)).
Proof.
  intro Hf.
  unfold handler_fragments, handler_skipped. rewrite Hf. simpl.
  destruct (method_of f); simpl.
  - unfold extends, skip; simpl. now rewrite app_nil_r.
  - apply emit_all_extends.
  - rewrite handle_constructor_emits. apply emit_all_extends.
  - apply extends_refl.
  - rewrite handle_struct_decl_emits. apply emit_all_extends.
Qed.

Lemma end_scope_emits (self : bind) (top : ScopeFrame) :
  py_last (_state_stack self) = Some top ->
  end_scope self = Ok (emit_all (closing_fragment (frame_kind top)) self).
Proof.
  intro Htop. unfold end_scope, closing_fragment. rewrite Htop.
  destruct (String.eqb (frame_kind top) "NAMESPACE"); [reflexivity|].
  destruct (String.eqb (frame_kind top) "STRUCT_DECL"); [reflexivity|].
  destruct (String.eqb (frame_kind top) "CLASS_TEMPLATE"); [reflexivity|].
  now rewrite emit_all_nil.
Qed.

Lemma pop_state_pushed (self : bind) (s : list ScopeFrame) (fr : ScopeFrame) :
  _state_stack self = (s ++ [fr])%list ->
  pop_state self = Ok (set_state_stack s self).
Proof.
  intro Hs. unfold pop_state. rewrite Hs, removelast_last.
  now destruct s.
Qed.

(** [handle_node], one level unfolded: whatever the entry of the registry,
    the handler is called and the walk goes on in every member. *)
Lemma handle_node_eq (it : AstNode) (self : bind) :
  handle_node it self
  = match kind_functions (kind it) with
    | None => Raise (KeyError (kind it))
    | Some f =>
        self <- handle_nodes (members it) (call (method_of f) (enter it self)) ;;
        self <- end_scope self ;;
        pop_state self
    end.
Proof.
  destruct it as [k x e ms d l c]. simpl.
  destruct (kind_functions k) as [f|]; reflexivity.
Qed.

Lemma handle_nodes_ok (ms : list AstNode) :
  Forall (fun m => forall self, exists self',
            handle_node m self = Ok self'
            /\ extends self self' (fragments m) (skipped_records m)) ms ->
  forall self, exists self',
    handle_nodes ms self = Ok self'
    /\ extends self self' (flat_map fragments ms)
               (flat_map skipped_records ms).
Proof.
  induction 1 as [|m ms Hm _ IH]; intro self; simpl.
  - exists self. split; [reflexivity | apply extends_refl].
  - destruct (Hm self) as (s1 & E1 & X1). rewrite E1. simpl.
    destruct (IH s1) as (s2 & E2 & X2).
    exists s2. split; [exact E2 | eapply extends_trans; eassumption].
Qed.

(** A walk through a tree whose kinds are all registered ends, leaves the
    stack as it found it, and appends the fragments and the records of the
    tree. *)
Lemma handle_node_ok (it : AstNode) :
  all_registered it = true ->
  forall self, exists self',
    handle_node it self = Ok self'
    /\ extends self self' (fragments it) (skipped_records it).
Proof.
  induction it as [k x e ms d l c IH] using AstNode_tree_ind.
  intros Hreg self.
  rewrite handle_node_eq. cbn [kind members].
  unfold all_registered in Hreg. rewrite subnodes_eq in Hreg.
  cbn [forallb members] in Hreg.
  apply andb_prop in Hreg. destruct Hreg as [Hk Hms].
  unfold registered in Hk. cbn [kind] in Hk.
  destruct (kind_functions k) as [f|] eqn:Hf; [|discriminate].
  set (it := mkNode k x e ms d l c).
  assert (Hall : Forall (fun m => forall self, exists self',
                   handle_node m self = Ok self'
                   /\ extends self self' (fragments m) (skipped_records m)) ms).
  { clear - IH Hms. induction IH as [|m ms Hm _ IHms]; constructor.
    - apply Hm. unfold all_registered.
      simpl in Hms. rewrite forallb_app in Hms. now apply andb_prop in Hms.
    - apply IHms. simpl in Hms. rewrite forallb_app in Hms.
      now apply andb_prop in Hms. }
  pose proof (call_extends f (enter it self) Hf) as Xc.
  destruct (handle_nodes_ok ms Hall (call (method_of f) (enter it self)))
    as (s2 & E2 & X2).
  rewrite E2. simpl.
  pose proof (extends_trans _ _ _ _ _ _ _ Xc X2) as X12.
  destruct X12 as (S12 & L12 & K12 & I12).
  assert (Htop : py_last (_state_stack s2) = Some (frame_of it)).
  { rewrite S12. simpl. apply py_last_app. }
  rewrite (end_scope_emits _ _ Htop). simpl.
  rewrite (pop_state_pushed _ (_state_stack self) (frame_of it)).
  2:{ simpl. exact S12. }
  eexists. split; [reflexivity|].
  unfold extends. simpl.
  rewrite L12, K12, I12. simpl.
  rewrite <- !app_assoc.
  repeat split; reflexivity.
Qed.

(** A walk through a tree in which some kind is not registered raises the
    [KeyError] of such a kind. *)
Lemma handle_node_raises (it : AstNode) :
  all_registered it = false ->
  forall self, exists k,
    handle_node it self = Raise (KeyError k) /\ kind_functions k = None.
Proof.
  induction it as [k x e ms d l c IH] using AstNode_tree_ind.
  intros Hreg self.
  rewrite handle_node_eq. cbn [kind members].
  unfold all_registered in Hreg. rewrite subnodes_eq in Hreg.
  cbn [forallb members] in Hreg.
  unfold registered at 1 in Hreg. cbn [kind] in Hreg.
  destruct (kind_functions k) as [f|] eqn:Hf; [|now exists k].
  cbn [andb] in Hreg.
  generalize (call (method_of f) (enter (mkNode k x e ms d l c) self)).
  clear self.
  induction IH as [|m ms Hm _ IHms]; intro self; [discriminate|].
  simpl in Hreg. rewrite forallb_app in Hreg.
  simpl.
  destruct (forallb registered (subnodes m)) eqn:Em.
  - destruct (handle_node_ok m Em self) as (s1 & E1 & _).
    rewrite E1. simpl. apply IHms. exact Hreg.
  - destruct (Hm Em self) as (k' & E1 & Hk').
    rewrite E1. simpl. now exists k'.
Qed.

Lemma all_registered_false_iff (root : AstNode) :
  all_registered root = false
  <-> exists n, In n (subnodes root) /\ kind_functions (kind n) = None.
Proof.
  unfold all_registered. split.
  - intro H.
    destruct (existsb (fun n => negb (registered n)) (subnodes root)) eqn:E.
    + apply existsb_exists in E. destruct E as (n & Hin & Hn).
      exists n. split; [exact Hin|].
      unfold registered in Hn. now destruct (kind_functions (kind n)).
    + exfalso.
      assert (forallb registered (subnodes root) = true); [|congruence].
      apply forallb_forall. intros n Hin.
      destruct (registered n) eqn:R; [reflexivity|].
      assert (existsb (fun n => negb (registered n)) (subnodes root) = true);
        [|congruence].
      apply existsb_exists. exists n. now rewrite R.
  - intros (n & Hin & Hn).
    destruct (forallb registered (subnodes root)) eqn:E; [|reflexivity].
    rewrite forallb_forall in E. specialize (E n Hin).
    unfold registered in E. now rewrite Hn in E.
Qed.

Lemma handle_final_assembles (self : bind) (filename module_name : string) :
  fst (handle_final self filename module_name)
  = assemble filename module_name (_linelist self).
Proof.
  reflexivity.
Qed.

Lemma generate_registered (root : AstNode) :
  all_registered root = true ->
  generate (Some root)
  = Ok (assemble (filename_of root) "pcl" (fragments root)).
Proof.
  intro Hreg. unfold generate, bind_init.
  destruct (handle_node_ok root Hreg
              {| item := root; _state_stack := []; _linelist := [];
                 _skipped := []; _inclusion_list := [] |})
    as (obj & E & _ & L & _).
  rewrite E. cbn [bind_result]. rewrite handle_final_assembles.
  simpl in L. now rewrite L.
Qed.

(* ================================================================== *)
(** ** Errors of [generate] *)

(** C8.  [generate] raises exactly when there is no input tree or the tree
    holds a node whose kind is no key of the registry.  Without a tree the
    exception is the one of [generate] itself; with a tree it is the
    [KeyError] of a kind that is not registered.  On every other input
    [generate] returns the assembled lines of the tree; the kinds entered
    as [unsure] are keys of the registry like the others. *)
Theorem generate_raises_iff (header_info : option AstNode) :
  ((exists e, generate header_info = Raise e)
   <-> (header_info = None
        \/ exists root n, header_info = Some root
                          /\ In n (subnodes root)
                          /\ kind_functions (kind n) = None))
  /\ (header_info = None
      <-> generate header_info = Raise (Exception "Empty json"))
  /\ ((exists root n, header_info = Some root /\ In n (subnodes root)
                      /\ kind_functions (kind n) = None)
      <-> exists k, generate header_info = Raise (KeyError k)
                    /\ kind_functions k = None)
  /\ ((exists root, header_info = Some root /\ all_registered root = true)
      <-> exists lines, generate header_info = Ok lines)
  /\ (forall root, header_info = Some root -> all_registered root = true ->
        generate header_info
        = Ok (assemble (filename_of root) "pcl" (fragments root)))
  /\ (forall n, option_map policy_of (kind_functions (kind n))
                = Some (Some needs_review) -> registered n = true).
Proof.
  assert (Hsome : forall root,
            (all_registered root = true
             /\ generate (Some root)
                = Ok (assemble (filename_of root) "pcl" (fragments root)))
            \/ (all_registered root = false
                /\ exists k, generate (Some root) = Raise (KeyError k)
                             /\ kind_functions k = None)).
  { intro root. destruct (all_registered root) eqn:R.
    - left. split; [reflexivity | now apply generate_registered].
    - right. split; [reflexivity|].
      destruct (handle_node_raises root R
                  {| item := root; _state_stack := []; _linelist := [];
                     _skipped := []; _inclusion_list := [] |})
        as (k & E & Hk).
      exists k. split; [|exact Hk].
      unfold generate, bind_init. now rewrite E. }
  destruct header_info as [root|].
  - destruct (Hsome root) as [[R G] | [R (k & G & Hk)]].
    + repeat split.
      * intros (e & He). congruence.
      * intros [H | (r & n & Hr & Hin & Hn)]; [discriminate|].
        injection Hr as <-.
        assert (all_registered root = false)
          by (apply all_registered_false_iff; eauto).
        congruence.
      * discriminate.
      * congruence.
      * intros (r & n & Hr & Hin & Hn). injection Hr as <-.
        assert (all_registered root = false)
          by (apply all_registered_false_iff; eauto).
        congruence.
      * intros (k & Hk & _). congruence.
      * intros _. eauto.
      * intros _. exists root. auto.
      * intros r Hr _. injection Hr as <-. exact G.
      * intros n Hn. unfold registered.
        now destruct (kind_functions (kind n)).
    + apply all_registered_false_iff in R as Hex.
      destruct Hex as (n & Hin & Hn).
      repeat split.
      * intros _. right. exists root, n. auto.
      * intros _. eauto.
      * discriminate.
      * congruence.
      * intros _. eauto.
      * intros _. exists root, n. auto.
      * intros (r & Hr & Hreg). injection Hr as <-. congruence.
      * intros (ls & Hls). congruence.
      * intros r Hr Hreg. injection Hr as <-. congruence.
      * intros n' Hn'. unfold registered.
        now destruct (kind_functions (kind n')).
  - repeat split; simpl; try (intros; congruence); try discriminate.
    + intros _. now left.
    + intros _. eauto.
    + intros (r & n & Hr & _). discriminate.
    + intros (k & Hk & _). discriminate.
    + intros (r & Hr & _). discriminate.
    + intros (ls & Hls). discriminate.
    + intros n Hn. unfold registered.
      now destruct (kind_functions (kind n)).
Qed.

Lemma generate_raises_iff_witness :
  generate (Some (Trees.unit_of [Trees.friend_f]))
  = Ok (assemble "file.hpp" "pcl" [])
  /\ exists e,
       generate (Some (Trees.unit_of [Trees.enum_E])) = Raise e.
Proof.
  split.
  - exact (proj1 (proj2 (proj2 (proj2 (proj2
             (generate_raises_iff (Some (Trees.unit_of [Trees.friend_f])))))))
             (Trees.unit_of [Trees.friend_f]) eq_refl eq_refl).
  - apply (proj1 (generate_raises_iff
                    (Some (Trees.unit_of [Trees.enum_E])))).
    right. exists (Trees.unit_of [Trees.enum_E]), Trees.enum_E.
    split; [reflexivity|]. split; [|reflexivity].
    right. now left.
Defined.

(* ================================================================== *)
(** ** The records of skipped nodes *)

(** C9.  [skip] appends one record and leaves the fragments alone; the
    record holds the line, the kind and the name of the current node, and
    its column entry holds the line of the node again, not its column: for
    the friend declaration at line 3, column 7 the record has column 3. *)
Theorem skip_stores_line_as_column :
  (forall self,
      _skipped (skip self)
      = (_skipped self
           ++ [ {| rec_line := line (item self);
                   rec_column := line (item self);
                   rec_kind := kind (item self);
                   rec_name := name (item self) |} ])%list
      /\ _linelist (skip self) = _linelist self)
  /\ _skipped (skip (at_item Trees.friend_f))
     = [ {| rec_line := 3; rec_column := 3;
            rec_kind := "FRIEND_DECL"; rec_name := "f" |} ]
  /\ line Trees.friend_f = 3%Z
  /\ column Trees.friend_f = 7%Z.
Proof.
  split; [|repeat split].
  intro self. split; reflexivity.
Qed.

(* ================================================================== *)
(** ** The closing fragment *)

(** C3.  [end_scope] appends the closing fragment of the kind on top of the
    stack: [}] for a namespace, [;] for [STRUCT_DECL] and for
    [CLASS_TEMPLATE], nothing for any other kind, and [CLASS_DECL] is such
    another kind: the walk of [class A {};] ends without [;], the walk of
    [struct A {};] with it. *)
Theorem end_scope_class_decl_appends_nothing :
  (forall self stack top,
      end_scope (set_state_stack (stack ++ [top])%list self)
      = Ok (emit_all (closing_fragment (frame_kind top))
                     (set_state_stack (stack ++ [top])%list self)))
  /\ closing_fragment "NAMESPACE" = ["}"]
  /\ closing_fragment "STRUCT_DECL" = [";"]
  /\ closing_fragment "CLASS_TEMPLATE" = [";"]
  /\ closing_fragment "CLASS_DECL" = []
  /\ walk_lines Trees.class_A = Some [py_class "A"; ".def(py::init<>())"]
  /\ walk_lines Trees.struct_A
     = Some [py_class "A"; ".def(py::init<>())"; ";"].
Proof.
  split; [|repeat split].
  intros self stack top.
  apply end_scope_emits. simpl. apply py_last_app.
Qed.

(* ================================================================== *)
(** ** Which members the walker visits *)

(** C2.  [handle_node] calls the handler of the node and then walks through
    every member, whatever the entry of the registry is: the test that
    guards the loop always holds.  The members of a node that is handled
    elsewhere are visited (the type reference under a field is recorded as
    skipped), and so are those of a node entered as [unsure] (the struct in
    the body of a function gets its registration). *)
Theorem handle_node_visits_members_of_skipped_kinds :
  (forall f, is_not_self_skip f = true)
  /\ (forall it self,
         handle_node it self
         = match kind_functions (kind it) with
           | None => Raise (KeyError (kind it))
           | Some f =>
               self <- handle_nodes (members it)
                         (call (method_of f) (enter it self)) ;;
               self <- end_scope self ;;
               pop_state self
           end)
  /\ option_map policy_of (kind_functions "FIELD_DECL")
     = Some (Some delegate_to_parent)
  /\ walk_skipped Trees.field_x_of_Foo
     = Some [ {| rec_line := 2; rec_column := 2;
                 rec_kind := "FIELD_DECL"; rec_name := "x" |};
              {| rec_line := 2; rec_column := 2;
                 rec_kind := "TYPE_REF"; rec_name := "struct Foo" |} ]
  /\ option_map policy_of (kind_functions "FUNCTION_DECL")
     = Some (Some needs_review)
  /\ walk_lines Trees.function_f
     = Some [py_class "L"; ".def(py::init<>())"; ";"].
Proof.
  split; [reflexivity|].
  split; [exact handle_node_eq|].
  repeat split.
Qed.

(* ================================================================== *)
(** ** The aggregate handler *)

(** [get_fields_from_anonymous] collects below any node, whatever its kind:
    the fields among its members, and the fields found below the anonymous
    unions and structs among its members. *)
Lemma get_fields_from_anonymous_eq (it : AstNode) :
  get_fields_from_anonymous it = flat_map fields_under (members it).
Proof.
  destruct it as [k x e ms d l c]. simpl.
  match goal with
  | |- ?loop ms [] = _ =>
      assert (H : forall l' fields,
                 loop l' fields = (fields ++ flat_map fields_under l')%list)
  end.
  { induction l' as [|m l' IH]; intro fields; simpl.
    - now rewrite app_nil_r.
    - rewrite IH. unfold fields_under at 2, PyStr.in_tuple. simpl.
      destruct (String.eqb (kind m) "FIELD_DECL");
        [now rewrite <- app_assoc|].
      destruct (String.eqb (kind m) "ANONYMOUS_UNION_DECL"); simpl;
        [now rewrite <- app_assoc|].
      destruct (String.eqb (kind m) "ANONYMOUS_STRUCT_DECL"); simpl;
        [now rewrite <- app_assoc | reflexivity]. }
  apply (H ms []).
Qed.

(** C5.  [handle_struct_decl] flattens every member of the aggregate, not
    only its anonymous unions and structs.  For
    [struct S { union { struct { int a; int b; }; }; };] the two fields [a]
    and [b] are exposed on [S] and nothing else; for
    [struct S { struct T { int x; }; };] the field [x] of the named struct
    [T] is exposed on [S] as well, as [S::x]. *)
Theorem named_member_is_flattened :
  (forall self,
      _linelist (handle_struct_decl self)
      = (_linelist self
           ++ [registration_fragment (item self); ".def(py::init<>())"]
           ++ map (field_fragment (name (item self)))
                  (flat_map (fun sub_item =>
                               flat_map fields_under (members sub_item))
                            (members (item self)))
           ++ flat_map (member_fragments (name (item self)))
                       (members (item self)))%list)
  /\ _linelist (handle_struct_decl (at_item Trees.struct_S_anonymous))
     = [py_class "S"; ".def(py::init<>())";
        def_readwrite "S" "a"; def_readwrite "S" "b"]
  /\ kind Trees.struct_T = "STRUCT_DECL"
  /\ _linelist (handle_struct_decl (at_item Trees.struct_S_nested))
     = [py_class "S"; ".def(py::init<>())"; def_readwrite "S" "x"]
  /\ walk_lines Trees.struct_S_nested
     = Some [py_class "S"; ".def(py::init<>())"; def_readwrite "S" "x";
             py_class "T"; ".def(py::init<>())"; def_readwrite "T" "x";
             ";"; ";"].
Proof.
  split; [|repeat split].
  intro self. rewrite handle_struct_decl_emits.
  replace (flat_map (fun sub_item => flat_map fields_under (members sub_item))
                    (members (item self)))
    with (flat_map get_fields_from_anonymous (members (item self)));
    [reflexivity|].
  apply flat_map_ext. intro m. apply get_fields_from_anonymous_eq.
Qed.

(** C6.  A method gets its fragment unless its name occurs inside the text
    [PCL_DEPRECATED]: the test is a substring test.  The method named
    [PCL_DEPRECATED] gets no fragment and, visited by the walker, one
    record; a method named [PCL] gets no fragment either. *)
Theorem method_named_PCL_is_dropped :
  (forall owner m,
      kind m = "CXX_METHOD" ->
      member_fragments owner m
      = if PyStr.contains "PCL_DEPRECATED" (name m) then []
        else [def_method owner (name m)])
  /\ walk_lines (Trees.struct_S_method "PCL_DEPRECATED")
     = Some [py_class "S"; ".def(py::init<>())"; ";"]
  /\ walk_skipped (Trees.struct_S_method "PCL_DEPRECATED")
     = Some [ {| rec_line := 2; rec_column := 2; rec_kind := "CXX_METHOD";
                 rec_name := "PCL_DEPRECATED" |} ]
  /\ walk_lines (Trees.struct_S_method "get")
     = Some [py_class "S"; ".def(py::init<>())"; def_method "S" "get"; ";"]
  /\ String.eqb "PCL" "PCL_DEPRECATED" = false
  /\ PyStr.contains "PCL_DEPRECATED" "PCL" = true
  /\ _linelist (handle_struct_decl (at_item (Trees.struct_S_method "PCL")))
     = [py_class "S"; ".def(py::init<>())"]
  /\ walk_lines (Trees.struct_S_method "PCL")
     = Some [py_class "S"; ".def(py::init<>())"; ";"].
Proof.
  split; [|repeat split].
  intros owner m Hk. unfold member_fragments. rewrite Hk.
  replace (String.eqb "CXX_METHOD" "FIELD_DECL") with false by reflexivity.
  replace (String.eqb "CXX_METHOD" "CXX_METHOD") with true by reflexivity.
  cbn [app].
  now destruct (PyStr.contains "PCL_DEPRECATED" (name m)).
Qed.

Lemma method_named_PCL_is_dropped_witness :
  member_fragments "S" (Trees.method_named "PCL") = [].
Proof.
  destruct method_named_PCL_is_dropped as [H _].
  exact (H "S" (Trees.method_named "PCL") eq_refl).
Defined.

(** C4, as the specification states it, fails: for
    [struct S { void m(); int f; };] the fragment of the method [m] comes
    before the fragment of the field [f]. *)
Lemma method_fragment_precedes_field_fragment :
  _linelist (handle_struct_decl (at_item Trees.struct_S_method_then_field))
  = [py_class "S"; ".def(py::init<>())";
     def_method "S" "m"; def_readwrite "S" "f"]
  /\ struct_fragments_fields_first Trees.struct_S_method_then_field
     = [py_class "S"; ".def(py::init<>())";
        def_readwrite "S" "f"; def_method "S" "m"]
  /\ _linelist (handle_struct_decl (at_item Trees.struct_S_method_then_field))
     <> struct_fragments_fields_first Trees.struct_S_method_then_field.
Proof.
  split; [reflexivity|]. split; [reflexivity|].
  vm_compute. intro H. discriminate H.
Qed.

(** C4, amended.  For an aggregate in which only the anonymous unions and
    structs among the members give fields to the flattening,
    [handle_struct_decl] appends the registration fragment, then the
    default constructor, then the fragments of the fields that the
    flattening collects below the anonymous unions and structs among the
    members, in source order, then one pass over the members in source
    order in which a field gives its field fragment and a method its method
    fragment: direct fields and methods come out in the order of their
    declarations. *)
Theorem handle_struct_decl_fragment_order (self : bind) :
  flattening_only_anonymous (item self) = true ->
  _linelist (handle_struct_decl self)
  = (_linelist self
       ++ [registration_fragment (item self); ".def(py::init<>())"]
       ++ map (field_fragment (name (item self)))
              (flat_map get_fields_from_anonymous
                 (filter is_anonymous_aggregate (members (item self))))
       ++ flat_map (member_fragments (name (item self)))
                   (members (item self)))%list.
Proof.
  intro H. rewrite handle_struct_decl_emits.
  unfold flattening_only_anonymous in H.
  replace (flat_map get_fields_from_anonymous
             (filter is_anonymous_aggregate (members (item self))))
    with (flat_map get_fields_from_anonymous (members (item self)));
    [reflexivity|].
  induction (members (item self)) as [|m ms IH]; [reflexivity|].
  cbn [forallb] in H. apply andb_prop in H. destruct H as [Hm Hms].
  cbn [flat_map filter]. rewrite (IH Hms).
  destruct (is_anonymous_aggregate m); [reflexivity|].
  cbn [orb] in Hm.
  now destruct (get_fields_from_anonymous m).
Qed.

Lemma handle_struct_decl_fragment_order_witness :
  _linelist (handle_struct_decl
               (at_item Trees.struct_S_union_method_field))
  = (_linelist (at_item Trees.struct_S_union_method_field)
       ++ [registration_fragment Trees.struct_S_union_method_field;
           ".def(py::init<>())"]
       ++ map (field_fragment "S")
              (flat_map get_fields_from_anonymous
                 (filter is_anonymous_aggregate
                         (members Trees.struct_S_union_method_field)))
       ++ flat_map (member_fragments "S")
                   (members Trees.struct_S_union_method_field))%list
  /\ _linelist (handle_struct_decl
                  (at_item Trees.struct_S_union_method_field))
     = [py_class "S"; ".def(py::init<>())"; def_readwrite "S" "a";
        def_method "S" "m"; def_readwrite "S" "f"].
Proof.
  split.
  - apply (handle_struct_decl_fragment_order
             (at_item Trees.struct_S_union_method_field)).
    vm_compute. reflexivity.
  - reflexivity.
Defined.

(* ================================================================== *)
(** ** The constructor handler *)






(* ================================================================== *)
(** ** The module opening *)

Lemma open_module_first (module_name : string) (pre post : list string)
    (x : string) :
  forallb starts_with_namespace pre = true ->
  starts_with_namespace x = false ->
  open_module module_name (pre ++ x :: post)%list
  = (pre ++ (module_opening module_name ++ x)%string :: post)%list.
Proof.
  intros Hpre Hx.
  induction pre as [|p pre IH]; simpl.
  - unfold starts_with_namespace in Hx. now rewrite Hx.
  - simpl in Hpre. apply andb_prop in Hpre. destruct Hpre as [Hp Hpre].
    unfold starts_with_namespace in Hp. rewrite Hp.
    now rewrite IH.
Qed.

Lemma open_module_none (module_name : string) (ls : list string) :
  forallb starts_with_namespace ls = true ->
  open_module module_name ls = ls.
Proof.
  induction ls as [|p ls IH]; simpl; [reflexivity|].
  intro H. apply andb_prop in H. destruct H as [Hp Hls].
  unfold starts_with_namespace in Hp. rewrite Hp.
  now rewrite IH.
Qed.

Lemma namespace_line_has_no_module_opening (l : string) :
  starts_with_namespace l = true -> has_module_opening l = false.
Proof.
  unfold starts_with_namespace, has_module_opening, PyStr.startswith.
  destruct l as [|c l]; [intro H; discriminate H|].
  change (String.prefix "namespace" (String c l))
    with (if ascii_dec "n"%char c then String.prefix "amespace" l else false).
  change (String.prefix "PYBIND11_MODULE(" (String c l))
    with (if ascii_dec "P"%char c
          then String.prefix "YBIND11_MODULE(" l else false).
  destruct (ascii_dec "n"%char c) as [E|E]; [subst c | discriminate].
  intros _. reflexivity.
Qed.

(** C10.  [handle_final] puts the module opening in front of the first
    fragment that does not start with [namespace] and of no other
    fragment; the output always ends with the closing [}].  When there is
    no fragment, or all of them start with [namespace], no line of the
    output has the module opening, and [generate] returns such an output:
    its last [}] closes a module that was never opened. *)
Theorem handle_final_without_module_opening
    (self : bind) (filename module_name : string) :
  (forall pre x post,
      _linelist self = (pre ++ x :: post)%list ->
      forallb starts_with_namespace pre = true ->
      starts_with_namespace x = false ->
      fst (handle_final self filename module_name)
      = (include_line filename :: _initial_pybind_lines
           ++ pre ++ (module_opening module_name ++ x)%string :: post
           ++ ["}"])%list)
  /\ (forallb starts_with_namespace (_linelist self) = true ->
      fst (handle_final self filename module_name)
      = (include_line filename :: _initial_pybind_lines
           ++ _linelist self ++ ["}"])%list
      /\ existsb has_module_opening
           (fst (handle_final self filename module_name)) = false)
  /\ py_last (fst (handle_final self filename module_name)) = Some "}"
  /\ (forall root,
         bind_init root = Ok self ->
         forallb starts_with_namespace (_linelist self) = true ->
         generate (Some root)
         = Ok (include_line (filename_of root) :: _initial_pybind_lines
                 ++ _linelist self ++ ["}"])%list).
Proof.
  rewrite handle_final_assembles. unfold assemble.
  split; [|split; [|split]].
  - intros pre x post Hl Hpre Hx.
    rewrite Hl, (open_module_first _ _ _ _ Hpre Hx).
    simpl. now rewrite <- app_assoc.
  - intro Hall. rewrite (open_module_none _ _ Hall).
    split; [reflexivity|].
    rewrite existsb_app. simpl.
    rewrite existsb_app. simpl.
    rewrite orb_false_r.
    clear - Hall.
    induction (_linelist self) as [|l ls IH]; simpl; [reflexivity|].
    simpl in Hall. apply andb_prop in Hall. destruct Hall as [Hl Hls].
    now rewrite (namespace_line_has_no_module_opening l Hl), IH.
  - rewrite app_assoc. apply py_last_app.
  - intros root Hroot Hall.
    unfold generate. rewrite Hroot. cbn [bind_result].
    rewrite handle_final_assembles. unfold assemble.
    now rewrite (open_module_none _ _ Hall).
Qed.

Lemma handle_final_without_module_opening_witness :
  fst (handle_final
         (set_linelist ["namespace n{"; "}"] (at_item (Trees.unit_of [])))
         "file.hpp" "pcl")
  = (include_line "file.hpp" :: _initial_pybind_lines
       ++ ["namespace n{"; "PYBIND11_MODULE(pcl, m){}"; "}"])%list
  /\ existsb has_module_opening
       (fst (handle_final after_empty_unit "file.hpp" "pcl")) = false
  /\ generate (Some (Trees.unit_of []))
     = Ok (include_line "file.hpp" :: _initial_pybind_lines ++ ["}"])%list.
Proof.
  split; [|split].
  - exact (proj1 (handle_final_without_module_opening
                    (set_linelist ["namespace n{"; "}"]
                                  (at_item (Trees.unit_of [])))
                    "file.hpp" "pcl")
             ["namespace n{"] "}" [] eq_refl eq_refl eq_refl).
  - exact (proj2 (proj1 (proj2 (handle_final_without_module_opening
                                  after_empty_unit "file.hpp" "pcl"))
                    eq_refl)).
  - exact (proj2 (proj2 (proj2 (handle_final_without_module_opening
                                  after_empty_unit "file.hpp" "pcl")))
             (Trees.unit_of []) eq_refl eq_refl).
Defined.

(* ================================================================== *)
(** ** Balance of the output for trees without class nodes *)

Lemma starts_with_dot_no_token (s : string) :
  fragment_tokens (String "."%char s) = [].
Proof. reflexivity. Qed.

Lemma startswith_app (p s : string) : PyStr.startswith (p ++ s) p = true.
Proof.
  unfold PyStr.startswith.
  induction p as [|a p IH]; simpl.
  - now destruct s.
  - destruct (ascii_dec a a) as [_|N]; [exact IH | now elim N].
Qed.

Lemma py_class_token (class_name : string) :
  fragment_tokens (py_class class_name) = [open_aggregate].
Proof.
  unfold fragment_tokens, py_class.
  now rewrite (startswith_app "py::class_<").
Qed.

Lemma py_class_with_bases_token (class_name bases : string) :
  fragment_tokens (py_class_with_bases class_name bases) = [open_aggregate].
Proof.
  unfold fragment_tokens, py_class_with_bases.
  now rewrite (startswith_app "py::class_<").
Qed.

Lemma ends_with_app (c : ascii) (s : string) :
  ends_with c (s ++ String c EmptyString) = true.
Proof.
  induction s as [|a s IH]; simpl.
  - apply Ascii.eqb_refl.
  - rewrite IH. now destruct (s ++ String c EmptyString).
Qed.

Lemma ends_with_cons (c a : ascii) (s : string) :
  s <> EmptyString -> ends_with c (String a s) = ends_with c s.
Proof. intro H. destruct s; [congruence | reflexivity]. Qed.

Lemma namespace_fragment_token (x : string) :
  fragment_tokens ("namespace " ++ x ++ "{") = [open_brace].
Proof.
  assert (E : ends_with "{"%char ("namespace " ++ x ++ "{") = true).
  { assert (N : x ++ "{" <> EmptyString) by (destruct x; discriminate).
    cbn [append].
    rewrite !ends_with_cons; try discriminate; try exact N.
    - apply ends_with_app. }
  unfold fragment_tokens.
  now rewrite E, (startswith_app "namespace ").
Qed.

Lemma no_tokens (ls : list string) :
  Forall (fun l => fragment_tokens l = []) ls ->
  flat_map fragment_tokens ls = [].
Proof.
  induction 1 as [|l ls Hl _ IH]; simpl; [reflexivity|].
  now rewrite Hl, IH.
Qed.

Lemma field_fragment_no_token (owner : string) (field : AstNode) :
  fragment_tokens (field_fragment owner field) = [].
Proof.
  unfold field_fragment.
  now destruct (String.eqb (element_type field) "ConstantArray").
Qed.

Lemma member_fragments_no_token (owner : string) (m : AstNode) :
  Forall (fun l => fragment_tokens l = []) (member_fragments owner m).
Proof.
  unfold member_fragments.
  destruct (String.eqb (kind m) "FIELD_DECL");
    destruct (String.eqb (kind m) "CXX_METHOD");
    try destruct (negb (PyStr.contains "PCL_DEPRECATED" (name m)));
    cbn [app]; repeat constructor; apply field_fragment_no_token.
Qed.

Lemma struct_fragments_tokens (it : AstNode) :
  flat_map fragment_tokens (struct_fragments it) = [open_aggregate].
Proof.
  unfold struct_fragments.
  rewrite !flat_map_app.
  rewrite (no_tokens (map _ _)), (no_tokens (flat_map _ _)).
  - cbn [flat_map app].
    replace (fragment_tokens (registration_fragment it)) with [open_aggregate];
      [reflexivity|].
    unfold registration_fragment.
    destruct (map name _); symmetry;
      [apply py_class_token | apply py_class_with_bases_token].
  - induction (members it) as [|m ms IH]; simpl; [constructor|].
    apply Forall_app. split; [apply member_fragments_no_token | exact IH].
  - apply Forall_forall. intros l Hl. apply in_map_iff in Hl.
    destruct Hl as (f & <- & _). apply field_fragment_no_token.
Qed.

Lemma constructor_fragments_tokens (it : AstNode) :
  flat_map fragment_tokens (constructor_fragments it) = [].
Proof.
  unfold constructor_fragments. cbv zeta.
  now destruct (truthy _).
Qed.

Lemma lookup_In (k : string) (d : list (string * Entry)) (f : Entry) :
  lookup k d = Some f -> In (k, f) d.
Proof.
  induction d as [|[k' e] d IH]; simpl; [discriminate|].
  destruct (String.eqb k k') eqn:E.
  - apply String.eqb_eq in E. intro H. injection H as <-. subst. now left.
  - intro H. right. now apply IH.
Qed.

Lemma namespace_handler_kind (k : string) (f : Entry) :
  kind_functions k = Some f -> method_of f = m_handle_namespace ->
  k = "NAMESPACE".
Proof.
  intros H Hm. apply lookup_In in H. unfold kind_functions_items in H.
  repeat (destruct H as [H|H];
          [injection H as <- <-; first [reflexivity | discriminate Hm]|]).
  destruct H.
Qed.

Lemma struct_handler_kind (k : string) (f : Entry) :
  kind_functions k = Some f -> method_of f = m_handle_struct_decl ->
  k = "STRUCT_DECL" \/ k = "CLASS_DECL".
Proof.
  intros H Hm. apply lookup_In in H. unfold kind_functions_items in H.
  repeat (destruct H as [H|H];
          [injection H as <- <-;
           first [now left | now right | discriminate Hm]|]).
  destruct H.
Qed.

Lemma handler_fragments_tokens (it : AstNode) :
  flat_map fragment_tokens (handler_fragments it)
  = if String.eqb (kind it) "NAMESPACE" then [open_brace]
    else if orb (String.eqb (kind it) "STRUCT_DECL")
                (String.eqb (kind it) "CLASS_DECL")
    then [open_aggregate] else [].
Proof.
  unfold handler_fragments.
  destruct (String.eqb (kind it) "NAMESPACE") eqn:En.
  { apply String.eqb_eq in En. rewrite En. cbn [option_map kind_functions].
    change (flat_map fragment_tokens ["namespace " ++ name it ++ "{"]
            = [open_brace]).
    cbn [flat_map]. now rewrite namespace_fragment_token. }
  destruct (String.eqb (kind it) "STRUCT_DECL") eqn:Es.
  { apply String.eqb_eq in Es. rewrite Es.
    change (flat_map fragment_tokens (struct_fragments it) = [open_aggregate]).
    apply struct_fragments_tokens. }
  destruct (String.eqb (kind it) "CLASS_DECL") eqn:Ec.
  { apply String.eqb_eq in Ec. rewrite Ec.
    change (flat_map fragment_tokens (struct_fragments it) = [open_aggregate]).
    apply struct_fragments_tokens. }
  cbn [orb].
  destruct (kind_functions (kind it)) as [f|] eqn:Hf; [|reflexivity].
  cbn [option_map].
  destruct (method_of f) eqn:Hm; try reflexivity.
  - apply (namespace_handler_kind _ _ Hf) in Hm.
    rewrite Hm in En. discriminate En.
  - apply constructor_fragments_tokens.
  - apply (struct_handler_kind _ _ Hf) in Hm.
    destruct Hm as [Hm|Hm]; rewrite Hm in *; discriminate.
Qed.

Lemma closing_fragment_tokens (k : string) :
  flat_map fragment_tokens (closing_fragment k)
  = if String.eqb k "NAMESPACE" then [close_brace]
    else if orb (String.eqb k "STRUCT_DECL") (String.eqb k "CLASS_TEMPLATE")
    then [close_semicolon] else [].
Proof.
  unfold closing_fragment.
  destruct (String.eqb k "NAMESPACE"); [reflexivity|].
  destruct (String.eqb k "STRUCT_DECL"); [reflexivity|].
  now destruct (String.eqb k "CLASS_TEMPLATE").
Qed.

Lemma flat_map_flat_map {A B C : Type} (f : B -> list C) (g : A -> list B)
    (l : list A) :
  flat_map f (flat_map g l) = flat_map (fun a => flat_map f (g a)) l.
Proof.
  induction l as [|a l IH]; simpl; [reflexivity|].
  now rewrite flat_map_app, IH.
Qed.

Lemma tree_tokens_eq (it : AstNode) :
  tree_tokens it
  = (flat_map fragment_tokens (handler_fragments it)
     ++ flat_map tree_tokens (members it)
     ++ flat_map fragment_tokens (closing_fragment (kind it)))%list.
Proof.
  unfold tree_tokens at 1.
  rewrite fragments_eq, !flat_map_app, flat_map_flat_map.
  reflexivity.
Qed.

Lemma well_nested_nil : well_nested [].
Proof. intros open rest. reflexivity. Qed.

Lemma well_nested_app (u v : list ScopeToken) :
  well_nested u -> well_nested v -> well_nested (u ++ v).
Proof.
  intros Hu Hv open rest. now rewrite <- app_assoc, Hu, Hv.
Qed.

Lemma well_nested_braces (u : list ScopeToken) :
  well_nested u -> well_nested ([open_brace] ++ u ++ [close_brace]).
Proof.
  intros Hu open rest. cbn [app closes_in_order].
  rewrite <- app_assoc, Hu. reflexivity.
Qed.

Lemma well_nested_aggregate (u : list ScopeToken) :
  well_nested u -> well_nested ([open_aggregate] ++ u ++ [close_semicolon]).
Proof.
  intros Hu open rest. cbn [app closes_in_order].
  rewrite <- app_assoc, Hu. reflexivity.
Qed.

Lemma well_nested_flat_map (ms : list AstNode) :
  Forall (fun m => well_nested (tree_tokens m)) ms ->
  well_nested (flat_map tree_tokens ms).
Proof.
  induction 1 as [|m ms Hm _ IH]; simpl.
  - apply well_nested_nil.
  - now apply well_nested_app.
Qed.

(** The fragments of a tree without class declarations and class templates
    close all the scopes they open. *)
Lemma tree_tokens_well_nested (it : AstNode) :
  closes_every_scope it = true -> well_nested (tree_tokens it).
Proof.
  induction it as [k x e ms d l c IH] using AstNode_tree_ind.
  intro H. unfold closes_every_scope in H. rewrite subnodes_eq in H.
  cbn [forallb members] in H. apply andb_prop in H. destruct H as [Hk Hms].
  assert (Hsub : well_nested (flat_map tree_tokens ms)).
  { apply well_nested_flat_map.
    clear - IH Hms. induction IH as [|m ms Hm _ IHms]; constructor.
    - apply Hm. unfold closes_every_scope.
      simpl in Hms. rewrite forallb_app in Hms. now apply andb_prop in Hms.
    - apply IHms. simpl in Hms. rewrite forallb_app in Hms.
      now apply andb_prop in Hms. }
  unfold closes_its_scope in Hk. cbn [kind] in Hk.
  apply andb_prop in Hk. destruct Hk as [Hcd Hct].
  apply negb_true_iff in Hcd. apply negb_true_iff in Hct.
  rewrite tree_tokens_eq, handler_fragments_tokens, closing_fragment_tokens.
  cbn [kind members]. rewrite Hcd, Hct, !orb_false_r.
  destruct (String.eqb k "NAMESPACE").
  - now apply well_nested_braces.
  - destruct (String.eqb k "STRUCT_DECL").
    + now apply well_nested_aggregate.
    + cbn [app]. now rewrite app_nil_r.
Qed.

(** No fragment of a tree begins with the module opening. *)
Lemma member_fragments_plain (owner : string) (m : AstNode) :
  Forall (fun l => has_module_opening l = false) (member_fragments owner m).
Proof.
  unfold member_fragments, field_fragment.
  destruct (String.eqb (kind m) "FIELD_DECL");
    destruct (String.eqb (kind m) "CXX_METHOD");
    try destruct (negb (PyStr.contains "PCL_DEPRECATED" (name m)));
    try destruct (String.eqb (element_type m) "ConstantArray");
    cbn [app]; repeat constructor.
Qed.

Lemma handler_fragments_plain (it : AstNode) :
  Forall (fun l => has_module_opening l = false) (handler_fragments it).
Proof.
  unfold handler_fragments.
  destruct (option_map method_of (kind_functions (kind it))) as [[| | | |]|].
  - constructor.
  - repeat constructor.
  - unfold constructor_fragments. cbv zeta.
    destruct (truthy _); repeat constructor.
  - constructor.
  - unfold struct_fragments. cbn [app].
    constructor.
    + unfold registration_fragment. now destruct (map name _).
    + constructor; [reflexivity|].
      apply Forall_app. split.
      * apply Forall_forall. intros l Hl. apply in_map_iff in Hl.
        destruct Hl as (f & <- & _). unfold field_fragment.
        now destruct (String.eqb (element_type f) "ConstantArray").
      * induction (members it) as [|m ms IH]; simpl; [constructor|].
        apply Forall_app. split; [apply member_fragments_plain | exact IH].
  - constructor.
Qed.

Lemma fragments_plain (it : AstNode) :
  Forall (fun l => has_module_opening l = false) (fragments it).
Proof.
  induction it as [k x e ms d l c IH] using AstNode_tree_ind.
  rewrite fragments_eq. cbn [kind members].
  apply Forall_app. split; [apply handler_fragments_plain|].
  apply Forall_app. split.
  - induction IH as [|m ms Hm _ IHms]; simpl; [constructor|].
    apply Forall_app. now split.
  - unfold closing_fragment.
    destruct (String.eqb k "NAMESPACE"); [repeat constructor|].
    destruct (String.eqb k "STRUCT_DECL"); [repeat constructor|].
    destruct (String.eqb k "CLASS_TEMPLATE"); repeat constructor.
Qed.

Lemma plain_output_tokens (ls : list string) :
  Forall (fun l => has_module_opening l = false) ls ->
  output_tokens ls = flat_map fragment_tokens ls.
Proof.
  unfold output_tokens.
  induction 1 as [|l ls Hl _ IH]; simpl; [reflexivity|].
  unfold line_tokens at 1. now rewrite Hl, IH.
Qed.

Lemma first_other_fragment (ls : list string) :
  existsb (fun l => negb (starts_with_namespace l)) ls = true ->
  exists pre x post,
    ls = (pre ++ x :: post)%list
    /\ forallb starts_with_namespace pre = true
    /\ starts_with_namespace x = false.
Proof.
  induction ls as [|l ls IH]; simpl; [discriminate|].
  destruct (starts_with_namespace l) eqn:E; simpl.
  - intro H. destruct (IH H) as (pre & x & post & -> & Hpre & Hx).
    exists (l :: pre), x, post. simpl. rewrite E, Hpre. auto.
  - intros _. exists [], l, ls. auto.
Qed.

Lemma namespace_lines_tokens (pre : list string) :
  forallb starts_with_namespace pre = true ->
  exists j, flat_map fragment_tokens pre = repeat open_brace j.
Proof.
  induction pre as [|p pre IH]; simpl.
  - intros _. now exists 0%nat.
  - intro H. apply andb_prop in H. destruct H as [Hp Hpre].
    destruct (IH Hpre) as (j & Hj). rewrite Hj.
    unfold starts_with_namespace, PyStr.startswith in Hp.
    destruct p as [|c s]; [discriminate Hp|].
    change (String.prefix "namespace" (String c s))
      with (if ascii_dec "n"%char c
            then String.prefix "amespace" s else false) in Hp.
    destruct (ascii_dec "n"%char c) as [E|E]; [subst c | discriminate Hp].
    unfold fragment_tokens.
    destruct (andb _ _).
    + now exists (S j).
    + now exists j.
Qed.

Lemma repeat_app_cons {A : Type} (a : A) (j : nat) (l : list A) :
  (repeat a j ++ a :: l)%list = a :: (repeat a j ++ l)%list.
Proof.
  induction j as [|j IH]; simpl; [reflexivity | now rewrite IH].
Qed.

Lemma closes_in_order_opens (j : nat) (open v : list ScopeToken) :
  closes_in_order open (repeat open_brace j ++ v)
  = closes_in_order (repeat open_brace j ++ open) v.
Proof.
  revert open.
  induction j as [|j IH]; intro open; simpl; [reflexivity|].
  now rewrite IH, repeat_app_cons.
Qed.

Lemma closes_in_order_frame (u : list ScopeToken) :
  forall open, closes_in_order open u = true ->
  forall below v,
    closes_in_order (open ++ below) (u ++ v) = closes_in_order below v.
Proof.
  induction u as [|t u IH]; intros open H below v.
  - destruct open; [reflexivity | discriminate H].
  - destruct t; simpl in *.
    + apply (IH (open_brace :: open) H).
    + apply (IH (open_aggregate :: open) H).
    + destruct open as [|[| | |] open]; try discriminate H. now apply IH.
    + destruct open as [|[| | |] open]; try discriminate H. now apply IH.
Qed.

Lemma closes_in_order_counts (ts : list ScopeToken) :
  forall open, closes_in_order open ts = true ->
  (count_open ts + length open = count_close ts)%nat.
Proof.
  unfold count_open, count_close.
  induction ts as [|t ts IH]; intros open H.
  - now destruct open.
  - destruct t; simpl in *.
    + rewrite <- (IH _ H). simpl. lia.
    + rewrite <- (IH _ H). simpl. lia.
    + destruct open as [|[| | |] open]; try discriminate H.
      rewrite <- (IH _ H). simpl. lia.
    + destruct open as [|[| | |] open]; try discriminate H.
      rewrite <- (IH _ H). simpl. lia.
Qed.

(** For a tree whose kinds are registered, without class declarations and
    class templates, and with a fragment that does not start with
    [namespace], the output of [generate] is balanced. *)
Lemma generate_balanced_without_class_nodes (root : AstNode) :
  all_registered root = true ->
  closes_every_scope root = true ->
  existsb (fun l => negb (starts_with_namespace l)) (fragments root) = true ->
  exists out, generate (Some root) = Ok out /\ balanced out = true.
Proof.
  intros Hreg Hscope Hother.
  rewrite (generate_registered root Hreg).
  eexists. split; [reflexivity|].
  assert (Hord : closes_in_order []
                   (output_tokens
                      (assemble (filename_of root) "pcl" (fragments root)))
                 = true).
  { pose proof (tree_tokens_well_nested root Hscope) as Hwn.
    pose proof (fragments_plain root) as Hplain.
    unfold tree_tokens in Hwn.
    destruct (first_other_fragment _ Hother)
      as (pre & x & post & Hfr & Hpre & Hx).
    rewrite Hfr in *.
    apply Forall_app in Hplain. destruct Hplain as [Ppre Ppost].
    apply Forall_cons_iff in Ppost. destruct Ppost as [_ Ppost].
    unfold assemble. rewrite (open_module_first _ _ _ _ Hpre Hx).
    unfold output_tokens.
    change (flat_map line_tokens
              ((include_line (filename_of root) :: _initial_pybind_lines)
               ++ (pre ++ (module_opening "pcl" ++ x)%string :: post)
               ++ ["}"])%list)
      with (flat_map line_tokens
              ((pre ++ (module_opening "pcl" ++ x)%string :: post)
               ++ ["}"])%list).
    rewrite !flat_map_app. cbn [flat_map].
    change (line_tokens (module_opening "pcl" ++ x))
      with (open_brace :: fragment_tokens x).
    change (line_tokens "}") with [close_brace].
    fold (output_tokens pre). fold (output_tokens post).
    rewrite (plain_output_tokens pre Ppre), (plain_output_tokens post Ppost).
    rewrite flat_map_app in Hwn. cbn [flat_map] in Hwn.
    destruct (namespace_lines_tokens pre Hpre) as (j & Hj).
    rewrite Hj in *.
    specialize (Hwn [] []). rewrite app_nil_r in Hwn.
    rewrite closes_in_order_opens, app_nil_r in Hwn. cbn in Hwn.
    rewrite <- !app_assoc. cbn [app].
    rewrite closes_in_order_opens, app_nil_r. cbn [closes_in_order].
    replace (open_brace :: repeat open_brace j)
      with (repeat open_brace j ++ [open_brace])%list
      by (now rewrite repeat_app_cons, app_nil_r).
    rewrite app_assoc.
    rewrite (closes_in_order_frame _ _ Hwn [open_brace] [close_brace]).
    reflexivity. }
  unfold balanced. rewrite Hord, andb_true_r.
  apply Nat.eqb_eq.
  pose proof (closes_in_order_counts _ _ Hord) as Hc.
  cbn [length] in Hc. now rewrite Nat.add_0_r in Hc.
Qed.

(* ================================================================== *)
(** ** Balance of the output with a class declaration *)

(** C1.  The output for a header that declares [class A {};] is not
    balanced: the module and the registration of [A] are opened, and only
    the final [}] closes.  The same header with [struct A {};] gives a
    balanced output. *)
Theorem class_declaration_output_unbalanced :
  generate (Some (Trees.unit_of [Trees.class_A]))
  = Ok (include_line "file.hpp" :: _initial_pybind_lines
          ++ [(module_opening "pcl" ++ py_class "A")%string;
              ".def(py::init<>())";
              "}"])%list
  /\ generated_tokens (Trees.unit_of [Trees.class_A])
     = Some [open_brace; open_aggregate; close_brace]
  /\ option_map count_open (generated_tokens (Trees.unit_of [Trees.class_A]))
     = Some 2%nat
  /\ option_map count_close (generated_tokens (Trees.unit_of [Trees.class_A]))
     = Some 1%nat
  /\ option_map (closes_in_order [])
       (generated_tokens (Trees.unit_of [Trees.class_A])) = Some false
  /\ generated_tokens (Trees.unit_of [Trees.struct_A])
     = Some [open_brace; open_aggregate; close_semicolon; close_brace]
  /\ option_map (closes_in_order [])
       (generated_tokens (Trees.unit_of [Trees.struct_A])) = Some true.
Proof.
  repeat split.
Qed.

(* ================================================================== *)
(** * Further properties of the walk *)

(** No kind is written twice in the dictionary literal, so the entry of a
    kind does not depend on which of two equal keys a dictionary keeps. *)
Lemma kind_functions_keys_distinct :
  distinct (map fst kind_functions_items) = true.
Proof. vm_compute. reflexivity. Qed.

Lemma walk_extends (it : AstNode) (self self' : bind) :
  handle_node it self = Ok self' ->
  extends self self' (fragments it) (skipped_records it).
Proof.
  intro H.
  destruct (all_registered it) eqn:R.
  - destruct (handle_node_ok it R self) as (s & E & X).
    rewrite E in H. injection H as <-. exact X.
  - destruct (handle_node_raises it R self) as (k & E & _).
    rewrite E in H. discriminate H.
Qed.

(** A successful walk of a node leaves the stack and the inclusion list as
    they were and appends to the two other lists what the tree under the
    node determines: its fragments and its records, whatever the lists
    held before. *)
Theorem walk_appends_fragments_of_tree (it : AstNode) (self self' : bind) :
  handle_node it self = Ok self' ->
  _state_stack self' = _state_stack self
  /\ _linelist self' = (_linelist self ++ fragments it)%list
  /\ _skipped self' = (_skipped self ++ skipped_records it)%list
  /\ _inclusion_list self' = _inclusion_list self.
Proof.
  intro H. exact (walk_extends it self self' H).
Qed.

Lemma walk_appends_fragments_of_tree_witness :
  let self := emit "namespace n{" (at_item Trees.function_f) in
  let self' := walked Trees.struct_S_nested self in
  _state_stack self' = _state_stack self
  /\ _linelist self' = (_linelist self ++ fragments Trees.struct_S_nested)%list
  /\ _skipped self' = (_skipped self ++ skipped_records Trees.struct_S_nested)%list
  /\ _inclusion_list self' = _inclusion_list self.
Proof.
  intros self self'.
  apply (walk_appends_fragments_of_tree Trees.struct_S_nested self self').
  vm_compute. reflexivity.
Defined.

(** The records of a tree are those of its nodes whose handler is [skip],
    one for each of them, in document order. *)
Lemma skipped_records_of_subnodes (it : AstNode) :
  skipped_records it = map record_of (filter is_skip_node (subnodes it)).
Proof.
  induction it as [k x e ms d l c IH] using AstNode_tree_ind.
  rewrite skipped_records_eq, subnodes_eq. cbn [members filter map].
  assert (Hms : flat_map skipped_records ms
                = map record_of (filter is_skip_node (flat_map subnodes ms))).
  { induction IH as [|m ms Hm _ IHms]; simpl; [reflexivity|].
    now rewrite filter_app, map_app, Hm, IHms. }
  rewrite Hms. unfold handler_skipped, is_skip_node.
  destruct (option_map method_of (kind_functions (kind (mkNode k x e ms d l c))))
    as [[| | | |]|]; reflexivity.
Qed.

(** After [bind(root)] the list [_skipped] holds one record for every node
    of the tree whose registry entry is [skip], in document order, and no
    record for a node with a handler of its own. *)
Theorem skipped_one_record_per_skip_node (root : AstNode) (obj : bind) :
  bind_init root = Ok obj ->
  _skipped obj = map record_of (filter is_skip_node (subnodes root)).
Proof.
  intro H. unfold bind_init in H.
  apply walk_extends in H.
  destruct H as (_ & _ & K & _).
  rewrite K. apply skipped_records_of_subnodes.
Qed.

Lemma skipped_one_record_per_skip_node_witness :
  _skipped (walked Trees.struct_S_with_Foo (fresh Trees.struct_S_with_Foo))
  = map record_of (filter is_skip_node (subnodes Trees.struct_S_with_Foo)).
Proof.
  apply (skipped_one_record_per_skip_node Trees.struct_S_with_Foo).
  vm_compute. reflexivity.
Defined.

Lemma find_app_first {A : Type} (f : A -> bool) (l1 l2 : list A) :
  find f (l1 ++ l2)
  = match find f l1 with
    | Some a => Some a
    | None => find f l2
    end.
Proof.
  induction l1 as [|a l1 IH]; simpl; [reflexivity|].
  now destruct (f a).
Qed.

Lemma find_unregistered_none (l : list AstNode) :
  find (fun n => negb (registered n)) l = None ->
  forallb registered l = true.
Proof.
  induction l as [|a l IH]; simpl; [reflexivity|].
  destruct (registered a); simpl; [exact IH | discriminate].
Qed.

Lemma handle_node_first_unregistered (it : AstNode) :
  forall k, first_unregistered it = Some k ->
  forall self, handle_node it self = Raise (KeyError k).
Proof.
  induction it as [k0 x e ms d l c IH] using AstNode_tree_ind.
  intros k Hk self.
  rewrite handle_node_eq. cbn [kind members].
  unfold first_unregistered in Hk. rewrite subnodes_eq in Hk.
  cbn [find members] in Hk.
  unfold registered at 1 in Hk. cbn [kind] in Hk.
  destruct (kind_functions k0) as [f|] eqn:Hf.
  2:{ cbn in Hk. now injection Hk as <-. }
  cbn [negb] in Hk.
  generalize (call (method_of f) (enter (mkNode k0 x e ms d l c) self)).
  clear self.
  induction IH as [|m ms Hm _ IHms]; intro self; [discriminate Hk|].
  simpl in Hk. rewrite find_app_first in Hk.
  simpl.
  destruct (find (fun n => negb (registered n)) (subnodes m)) as [n|] eqn:Em.
  - rewrite (Hm k); [reflexivity|].
    unfold first_unregistered. rewrite Em. exact Hk.
  - apply find_unregistered_none in Em.
    destruct (handle_node_ok m Em self) as (s1 & E1 & _).
    rewrite E1. cbn [bind_result]. apply IHms. exact Hk.
Qed.

(** [generate] on a tree: if some node has a kind that the registry does
    not know, the [KeyError] names the kind of the first such node in
    document order and no line is returned; otherwise the assembled lines
    are returned. *)
Theorem generate_raises_first_unknown_kind (root : AstNode) :
  generate (Some root)
  = match first_unregistered root with
    | Some k => Raise (KeyError k)
    | None => Ok (assemble (filename_of root) "pcl" (fragments root))
    end.
Proof.
  destruct (first_unregistered root) as [k|] eqn:E.
  - unfold generate, bind_init.
    now rewrite (handle_node_first_unregistered root k E).
  - apply generate_registered.
    unfold first_unregistered in E.
    destruct (find _ (subnodes root)) eqn:F; [discriminate E|].
    now apply find_unregistered_none.
Qed.

(** [end_scope] and the [pop] of [handle_node] raise [IndexError] on an
    empty stack, but no walk does: whatever the stack at entry, a walk
    that raises raises the [KeyError] of a kind that occurs in the tree and
    is no key of the registry. *)
Theorem walk_raises_only_key_error (it : AstNode) (self : bind) :
  (_state_stack self = [] ->
   end_scope self = Raise IndexError /\ pop_state self = Raise IndexError)
  /\ handle_node it self <> Raise IndexError
  /\ (forall e, handle_node it self = Raise e ->
        exists n, In n (subnodes it) /\ e = KeyError (kind n)
                  /\ kind_functions (kind n) = None).
Proof.
  split; [|split].
  - intro H. unfold end_scope, pop_state. now rewrite H.
  - destruct (first_unregistered it) as [k|] eqn:E.
    + now rewrite (handle_node_first_unregistered it k E).
    + unfold first_unregistered in E.
      destruct (find _ (subnodes it)) eqn:F; [discriminate E|].
      apply find_unregistered_none in F.
      destruct (handle_node_ok it F self) as (s & Hs & _).
      now rewrite Hs.
  - intros e He.
    destruct (first_unregistered it) as [k|] eqn:E.
    + rewrite (handle_node_first_unregistered it k E) in He.
      injection He as <-.
      unfold first_unregistered in E.
      destruct (find _ (subnodes it)) as [n|] eqn:F; [|discriminate E].
      injection E as <-.
      apply find_some in F. destruct F as [Hin Hn].
      exists n. split; [exact Hin|]. split; [reflexivity|].
      unfold registered in Hn. now destruct (kind_functions (kind n)).
    + unfold first_unregistered in E.
      destruct (find _ (subnodes it)) eqn:F; [discriminate E|].
      apply find_unregistered_none in F.
      destruct (handle_node_ok it F self) as (s & Hs & _).
      rewrite Hs in He. discriminate He.
Qed.

Lemma walk_raises_only_key_error_witness :
  let self := {| item := Trees.enum_E; _state_stack := []; _linelist := [];
                 _skipped := []; _inclusion_list := [] |} in
  (end_scope self = Raise IndexError /\ pop_state self = Raise IndexError)
  /\ exists n, In n (subnodes (Trees.unit_of [Trees.struct_A; Trees.enum_E]))
               /\ KeyError "ENUM_DECL" = KeyError (kind n)
               /\ kind_functions (kind n) = None.
Proof.
  intro self. split.
  - apply (proj1 (walk_raises_only_key_error Trees.enum_E self)).
    reflexivity.
  - apply (proj2 (proj2 (walk_raises_only_key_error
                           (Trees.unit_of [Trees.struct_A; Trees.enum_E])
                           self))).
    vm_compute. reflexivity.
Defined.

(* ================================================================== *)
(** * The current item after a walk *)

Lemma last_cons {A : Type} (a d : A) (l : list A) :
  last (a :: l) d = last l a.
Proof.
  revert a d. induction l as [|b l IH]; intros a d; [reflexivity|].
  change (last (a :: b :: l) d) with (last (b :: l) d).
  now rewrite (IH b d), (IH b a).
Qed.

Lemma last_app_default {A : Type} (l1 l2 : list A) (d : A) :
  last (l1 ++ l2) d = last l2 (last l1 d).
Proof.
  revert d. induction l1 as [|a l1 IH]; intro d; [reflexivity|].
  simpl app. now rewrite !last_cons, IH.
Qed.

Lemma last_subnodes (m d : AstNode) :
  last (subnodes m) d = last_visited m.
Proof.
  unfold last_visited. rewrite subnodes_eq. now rewrite !last_cons.
Qed.

Lemma item_call (m : Method) (self : bind) :
  item (call m self) = item self.
Proof.
  destruct m; simpl; try reflexivity.
  - now rewrite handle_constructor_emits.
  - now rewrite handle_struct_decl_emits.
Qed.

Lemma item_end_scope (self self' : bind) :
  end_scope self = Ok self' -> item self' = item self.
Proof.
  unfold end_scope.
  destruct (py_last (_state_stack self)) as [top|]; [|discriminate].
  destruct (String.eqb (frame_kind top) "NAMESPACE");
    [intro H; now injection H as <-|].
  destruct (String.eqb (frame_kind top) "STRUCT_DECL");
    [intro H; now injection H as <-|].
  destruct (String.eqb (frame_kind top) "CLASS_TEMPLATE");
    intro H; now injection H as <-.
Qed.

Lemma item_pop_state (self self' : bind) :
  pop_state self = Ok self' -> item self' = item self.
Proof.
  unfold pop_state.
  destruct (_state_stack self); [discriminate|].
  intro H. now injection H as <-.
Qed.

(** After the walk of a node the current item, and with it [self.kind],
    [self.name] and [self.members], is the node visited last: the last
    node of the tree in document order, not the node itself unless it has
    no members. *)
Theorem walk_leaves_last_visited_item (it : AstNode) (self self' : bind) :
  handle_node it self = Ok self' ->
  item self' = last_visited it
  /\ (members it = [] -> item self' = it).
Proof.
  revert self self'.
  assert (Hmain : forall self self',
            handle_node it self = Ok self' -> item self' = last_visited it).
  { induction it as [k x e ms d l c IH] using AstNode_tree_ind.
    intros self self'. rewrite handle_node_eq. cbn [kind members].
    destruct (kind_functions k) as [f|]; [|discriminate].
    destruct (handle_nodes ms _) as [s2|] eqn:E2; [|discriminate].
    cbn [bind_result].
    destruct (end_scope s2) as [s3|] eqn:E3; [|discriminate].
    cbn [bind_result]. intro E4.
    rewrite (item_pop_state _ _ E4), (item_end_scope _ _ E3).
    unfold last_visited. rewrite subnodes_eq, last_cons. cbn [members].
    revert E2.
    generalize (item_call (method_of f) (enter (mkNode k x e ms d l c) self)).
    change (item (enter (mkNode k x e ms d l c) self))
      with (mkNode k x e ms d l c).
    generalize (call (method_of f) (enter (mkNode k x e ms d l c) self)).
    generalize (mkNode k x e ms d l c) as it0.
    clear - IH.
    induction IH as [|m ms Hm _ IHms]; intros it0 s Hs E; simpl in *.
    - injection E as <-. exact Hs.
    - destruct (handle_node m s) as [s1|] eqn:E1; [|discriminate].
      cbn [bind_result] in E.
      rewrite last_app_default, last_subnodes.
      apply (IHms _ s1); [|exact E].
      now apply Hm in E1. }
  intros self self' H. split; [now apply Hmain in H|].
  intro Hnil. rewrite (Hmain _ _ H).
  unfold last_visited. rewrite subnodes_eq, Hnil. reflexivity.
Qed.

Lemma walk_leaves_last_visited_item_witness :
  item (walked Trees.struct_S_with_Foo (at_item Trees.class_A))
  = last_visited Trees.struct_S_with_Foo
  /\ item (walked Trees.class_A (at_item Trees.struct_S_with_Foo))
     = Trees.class_A.
Proof.
  split.
  - apply (walk_leaves_last_visited_item Trees.struct_S_with_Foo
             (at_item Trees.class_A)).
    vm_compute. reflexivity.
  - apply (proj2 (walk_leaves_last_visited_item Trees.class_A
                    (at_item Trees.struct_S_with_Foo)
                    (walked Trees.class_A (at_item Trees.struct_S_with_Foo))
                    ltac:(vm_compute; reflexivity))).
    reflexivity.
Defined.

(* ================================================================== *)
(** * Which nodes contribute which fragments *)

Lemma constructor_handler_kind (k : string) (f : Entry) :
  kind_functions k = Some f -> method_of f = m_handle_constructor ->
  k = "CONSTRUCTOR".
Proof.
  intros H Hm. apply lookup_In in H. unfold kind_functions_items in H.
  repeat (destruct H as [H|H];
          [injection H as <- <-; first [reflexivity | discriminate Hm]|]).
  destruct H.
Qed.

Lemma handler_fragments_other_kinds (it : AstNode) :
  has_emitting_kind it = false -> handler_fragments it = [].
Proof.
  unfold has_emitting_kind, PyStr.in_tuple. cbn [existsb].
  intro H.
  apply orb_false_elim in H. destruct H as [Hn H].
  apply orb_false_elim in H. destruct H as [Hs H].
  apply orb_false_elim in H. destruct H as [Hc H].
  apply orb_false_elim in H. destruct H as [Hk _].
  unfold handler_fragments.
  destruct (kind_functions (kind it)) as [f|] eqn:Hf; [|reflexivity].
  cbn [option_map].
  destruct (method_of f) eqn:Hm; try reflexivity.
  - apply (namespace_handler_kind _ _ Hf) in Hm.
    rewrite Hm in Hn. discriminate Hn.
  - apply (constructor_handler_kind _ _ Hf) in Hm.
    rewrite Hm in Hk. discriminate Hk.
  - apply (struct_handler_kind _ _ Hf) in Hm.
    destruct Hm as [Hm|Hm]; rewrite Hm in *; discriminate.
Qed.

(** A node whose kind is none of [NAMESPACE], [STRUCT_DECL], [CLASS_DECL]
    and [CONSTRUCTOR] adds no fragment of its own to those of its members,
    with one exception: a class template, although its handler is [skip],
    gets a [;] after the fragments of its members. *)
Theorem other_kinds_add_no_fragment (it : AstNode) :
  has_emitting_kind it = false ->
  fragments it
  = (flat_map fragments (members it)
     ++ (if String.eqb (kind it) "CLASS_TEMPLATE" then [";"] else []))%list.
Proof.
  intro H. rewrite fragments_eq, (handler_fragments_other_kinds it H).
  cbn [app]. f_equal.
  unfold has_emitting_kind, PyStr.in_tuple in H. cbn [existsb] in H.
  apply orb_false_elim in H. destruct H as [Hn H].
  apply orb_false_elim in H. destruct H as [Hs _].
  unfold closing_fragment. now rewrite Hn, Hs.
Qed.

Lemma other_kinds_add_no_fragment_witness :
  fragments Trees.function_f = fragments Trees.struct_L
  /\ fragments (mkNode "CLASS_TEMPLATE" "V" EmptyString
                  [Trees.struct_A] 1 1 30)
     = (fragments Trees.struct_A ++ [";"])%list.
Proof.
  split.
  - rewrite (other_kinds_add_no_fragment Trees.function_f eq_refl).
    cbn [members Trees.function_f flat_map].
    rewrite (other_kinds_add_no_fragment
               (mkNode "COMPOUND_STMT" EmptyString EmptyString
                  [mkNode "DECL_STMT" EmptyString EmptyString
                     [Trees.struct_L] 3 1 19] 2 1 17) eq_refl).
    reflexivity.
  - rewrite (other_kinds_add_no_fragment
               (mkNode "CLASS_TEMPLATE" "V" EmptyString
                  [Trees.struct_A] 1 1 30) eq_refl).
    reflexivity.
Defined.

Lemma no_match_filter {A : Type} (p : A -> bool) (l : list A) :
  Forall (fun a => p a = false) l -> filter p l = [].
Proof.
  induction 1 as [|a l Ha _ IH]; simpl; [reflexivity|].
  now rewrite Ha.
Qed.

Lemma struct_fragments_no_namespace_line (it : AstNode) :
  filter starts_with_namespace (struct_fragments it) = [].
Proof.
  apply no_match_filter. unfold struct_fragments. cbn [app].
  constructor.
  { unfold registration_fragment. now destruct (map name _). }
  constructor; [reflexivity|].
  apply Forall_app. split.
  - apply Forall_forall. intros l Hl. apply in_map_iff in Hl.
    destruct Hl as (f & <- & _). unfold field_fragment.
    now destruct (String.eqb (element_type f) "ConstantArray").
  - induction (members it) as [|m ms IH]; simpl; [constructor|].
    apply Forall_app. split; [|exact IH].
    unfold member_fragments, field_fragment.
    destruct (String.eqb (kind m) "FIELD_DECL");
      destruct (String.eqb (kind m) "CXX_METHOD");
      try destruct (negb (PyStr.contains "PCL_DEPRECATED" (name m)));
      try destruct (String.eqb (element_type m) "ConstantArray");
      cbn [app]; repeat constructor.
Qed.

Lemma handler_fragments_namespace_lines (it : AstNode) :
  filter starts_with_namespace (handler_fragments it)
  = if is_namespace_node it then [namespace_line it] else [].
Proof.
  unfold is_namespace_node, handler_fragments.
  destruct (String.eqb (kind it) "NAMESPACE") eqn:En.
  { apply String.eqb_eq in En. rewrite En. reflexivity. }
  destruct (kind_functions (kind it)) as [f|] eqn:Hf; [|reflexivity].
  cbn [option_map].
  destruct (method_of f) eqn:Hm; try reflexivity.
  - apply (namespace_handler_kind _ _ Hf) in Hm.
    rewrite Hm in En. discriminate En.
  - unfold constructor_fragments. cbv zeta. now destruct (truthy _).
  - apply struct_fragments_no_namespace_line.
Qed.

Lemma namespace_lines_of_subnodes (it : AstNode) :
  filter starts_with_namespace (fragments it)
  = map namespace_line (filter is_namespace_node (subnodes it)).
Proof.
  induction it as [k x e ms d l c IH] using AstNode_tree_ind.
  rewrite fragments_eq, subnodes_eq, !filter_app.
  rewrite handler_fragments_namespace_lines.
  cbn [kind members filter].
  assert (Hc : filter starts_with_namespace (closing_fragment k) = []).
  { unfold closing_fragment.
    destruct (String.eqb k "NAMESPACE"); [reflexivity|].
    destruct (String.eqb k "STRUCT_DECL"); [reflexivity|].
    now destruct (String.eqb k "CLASS_TEMPLATE"). }
  rewrite Hc, app_nil_r.
  assert (Hms : filter starts_with_namespace (flat_map fragments ms)
                = map namespace_line
                    (filter is_namespace_node (flat_map subnodes ms))).
  { induction IH as [|m ms Hm _ IHms]; simpl; [reflexivity|].
    now rewrite !filter_app, map_app, Hm, IHms. }
  rewrite Hms.
  now destruct (is_namespace_node (mkNode k x e ms d l c)).
Qed.

(** The fragments that start with [namespace], which [handle_final] passes
    over when it looks for the place of the module opening, are exactly the
    opening lines of the namespace nodes of the tree, in document order: no
    name of a class, a field or a method can make another fragment start
    with that text. *)
Theorem namespace_fragments_are_namespace_openers (root : AstNode)
    (obj : bind) :
  bind_init root = Ok obj ->
  filter starts_with_namespace (_linelist obj)
  = map namespace_line (filter is_namespace_node (subnodes root)).
Proof.
  intro H. unfold bind_init in H. apply walk_extends in H.
  destruct H as (_ & L & _). rewrite L. cbn [_linelist app].
  apply namespace_lines_of_subnodes.
Qed.

Lemma namespace_fragments_are_namespace_openers_witness :
  let root :=
    Trees.unit_of
      [mkNode "NAMESPACE" "namespace_like" EmptyString
         [mkNode "STRUCT_DECL" "namespace" EmptyString [] 2 1 30] 1 1 11] in
  filter starts_with_namespace
    (_linelist
       (walked root (fresh root)))
  = map namespace_line (filter is_namespace_node (subnodes root)).
Proof.
  intro root.
  apply (namespace_fragments_are_namespace_openers root).
  vm_compute. reflexivity.
Defined.

(* ================================================================== *)
(** * One registration and one default constructor for each aggregate *)

Lemma field_fragment_is_neither (owner : string) (f : AstNode) :
  is_default_constructor (field_fragment owner f) = false
  /\ is_registration (field_fragment owner f) = false.
Proof.
  unfold field_fragment.
  now destruct (String.eqb (element_type f) "ConstantArray").
Qed.

Lemma member_fragments_are_neither (owner : string) (m : AstNode) :
  Forall (fun l => is_default_constructor l = false)
         (member_fragments owner m)
  /\ Forall (fun l => is_registration l = false) (member_fragments owner m).
Proof.
  unfold member_fragments, field_fragment.
  destruct (String.eqb (kind m) "FIELD_DECL");
    destruct (String.eqb (kind m) "CXX_METHOD");
    try destruct (negb (PyStr.contains "PCL_DEPRECATED" (name m)));
    try destruct (String.eqb (element_type m) "ConstantArray");
    cbn [app]; split; repeat constructor.
Qed.

Lemma struct_fragments_counts (it : AstNode) :
  filter is_default_constructor (struct_fragments it) = [".def(py::init<>())"]
  /\ filter is_registration (struct_fragments it) = [registration_fragment it].
Proof.
  assert (Hreg : is_default_constructor (registration_fragment it) = false
                 /\ is_registration (registration_fragment it) = true).
  { unfold registration_fragment, is_registration.
    destruct (map name _); (split; [reflexivity|]).
    - apply (startswith_app "py::class_<").
    - apply (startswith_app "py::class_<"). }
  destruct Hreg as [Hr1 Hr2].
  assert (Hf : forall fs,
            Forall (fun l => is_default_constructor l = false)
                   (map (field_fragment (name it)) fs)
            /\ Forall (fun l => is_registration l = false)
                      (map (field_fragment (name it)) fs)).
  { induction fs as [|f fs [IH1 IH2]]; [split; constructor|].
    destruct (field_fragment_is_neither (name it) f) as [F1 F2].
    split; constructor; assumption. }
  assert (Hm : forall ms,
            Forall (fun l => is_default_constructor l = false)
                   (flat_map (member_fragments (name it)) ms)
            /\ Forall (fun l => is_registration l = false)
                      (flat_map (member_fragments (name it)) ms)).
  { induction ms as [|m ms [IH1 IH2]]; [split; constructor|].
    destruct (member_fragments_are_neither (name it) m) as [M1 M2].
    split; cbn [flat_map]; apply Forall_app; split; assumption. }
  unfold struct_fragments. cbn [app filter].
  rewrite Hr1, Hr2.
  change (is_default_constructor ".def(py::init<>())") with true.
  change (is_registration ".def(py::init<>())") with false.
  cbv iota. rewrite !filter_app.
  destruct (Hf (flat_map get_fields_from_anonymous (members it))) as [F1 F2].
  destruct (Hm (members it)) as [M1 M2].
  now rewrite (no_match_filter _ _ F1), (no_match_filter _ _ F2),
              (no_match_filter _ _ M1), (no_match_filter _ _ M2).
Qed.

Lemma string_length_append (s t : string) :
  String.length (s ++ t) = (String.length s + String.length t)%nat.
Proof.
  induction s as [|a s IH]; simpl; [reflexivity | now rewrite IH].
Qed.

Lemma def_init_is_not_default (joined : string) :
  truthy joined = true -> is_default_constructor (def_init joined) = false.
Proof.
  intro H. unfold is_default_constructor.
  apply String.eqb_neq. intro E.
  apply (f_equal String.length) in E.
  unfold def_init in E. rewrite !string_length_append in E.
  destruct joined; [discriminate H|]. simpl in E. lia.
Qed.

Lemma handler_fragments_counts (it : AstNode) :
  length (filter is_default_constructor (handler_fragments it))
  = (if is_aggregate_node it then 1 else 0)%nat
  /\ length (filter is_registration (handler_fragments it))
     = (if is_aggregate_node it then 1 else 0)%nat.
Proof.
  unfold is_aggregate_node, handler_fragments.
  destruct (String.eqb (kind it) "STRUCT_DECL") eqn:Es.
  { apply String.eqb_eq in Es. rewrite Es. cbn [orb].
    change (option_map method_of (kind_functions "STRUCT_DECL"))
      with (Some m_handle_struct_decl). cbv iota.
    destruct (struct_fragments_counts it) as [-> ->]. now split. }
  destruct (String.eqb (kind it) "CLASS_DECL") eqn:Ec.
  { apply String.eqb_eq in Ec. rewrite Ec. cbn [orb].
    change (option_map method_of (kind_functions "CLASS_DECL"))
      with (Some m_handle_struct_decl). cbv iota.
    destruct (struct_fragments_counts it) as [-> ->]. now split. }
  cbn [orb].
  destruct (kind_functions (kind it)) as [f|] eqn:Hf; [|now split].
  cbn [option_map].
  destruct (method_of f) eqn:Hm; try (now split).
  - unfold constructor_fragments. cbv zeta.
    destruct (truthy _) eqn:T; [|now split].
    cbn [filter]. rewrite (def_init_is_not_default _ T). now split.
  - apply (struct_handler_kind _ _ Hf) in Hm.
    destruct Hm as [Hm|Hm]; rewrite Hm in *; discriminate.
Qed.

Lemma fragments_counts (it : AstNode) :
  length (filter is_default_constructor (fragments it))
  = length (filter is_aggregate_node (subnodes it))
  /\ length (filter is_registration (fragments it))
     = length (filter is_aggregate_node (subnodes it)).
Proof.
  induction it as [k x e ms d l c IH] using AstNode_tree_ind.
  rewrite fragments_eq, subnodes_eq, !filter_app, !length_app.
  destruct (handler_fragments_counts (mkNode k x e ms d l c)) as [-> ->].
  cbn [kind members filter].
  assert (Hc : filter is_default_constructor (closing_fragment k) = []
               /\ filter is_registration (closing_fragment k) = []).
  { unfold closing_fragment.
    destruct (String.eqb k "NAMESPACE"); [now split|].
    destruct (String.eqb k "STRUCT_DECL"); [now split|].
    now destruct (String.eqb k "CLASS_TEMPLATE"). }
  destruct Hc as [-> ->]. cbn [length]. rewrite !Nat.add_0_r.
  assert (Hms :
    length (filter is_default_constructor (flat_map fragments ms))
    = length (filter is_aggregate_node (flat_map subnodes ms))
    /\ length (filter is_registration (flat_map fragments ms))
       = length (filter is_aggregate_node (flat_map subnodes ms))).
  { induction IH as [|m ms [Hm1 Hm2] _ [IH1 IH2]]; [now split|].
    cbn [flat_map]. rewrite !filter_app, !length_app.
    rewrite Hm1, Hm2, IH1, IH2. now split. }
  destruct Hms as [-> ->].
  now destruct (is_aggregate_node (mkNode k x e ms d l c)).
Qed.

(** After [bind(root)] the fragment list has as many registration
    fragments, and as many default-constructor fragments, as the tree has
    struct and class declarations: one of each for every aggregate, nested
    or not, and none from any other node; an explicit constructor never
    adds a second default constructor. *)
Theorem one_registration_per_aggregate (root : AstNode) (obj : bind) :
  bind_init root = Ok obj ->
  length (filter is_registration (_linelist obj))
  = length (filter is_aggregate_node (subnodes root))
  /\ length (filter is_default_constructor (_linelist obj))
     = length (filter is_aggregate_node (subnodes root)).
Proof.
  intro H. unfold bind_init in H. apply walk_extends in H.
  destruct H as (_ & L & _). rewrite L. cbn [_linelist app].
  destruct (fragments_counts root) as [H1 H2]. now split.
Qed.

Lemma one_registration_per_aggregate_witness :
  let obj := walked Trees.struct_S_nested (fresh Trees.struct_S_nested) in
  length (filter is_registration (_linelist obj))
  = length (filter is_aggregate_node (subnodes Trees.struct_S_nested))
  /\ length (filter is_default_constructor (_linelist obj))
     = length (filter is_aggregate_node (subnodes Trees.struct_S_nested)).
Proof.
  intro obj.
  apply (one_registration_per_aggregate Trees.struct_S_nested obj).
  vm_compute. reflexivity.
Defined.

(* ================================================================== *)
(** * The fields found by the flattening *)

(** [get_fields_from_anonymous] returns field declarations only, as its
    docstring says, and each of them is a node below the item, never the
    item itself. *)
Theorem get_fields_from_anonymous_returns_fields (it : AstNode) :
  Forall (fun f => kind f = "FIELD_DECL"
                   /\ In f (flat_map subnodes (members it)))
         (get_fields_from_anonymous it).
Proof.
  induction it as [k x e ms d l c IH] using AstNode_tree_ind.
  rewrite get_fields_from_anonymous_eq. cbn [members].
  induction IH as [|m ms Hm _ IHms]; [constructor|].
  cbn [flat_map]. apply Forall_app. split.
  - unfold fields_under.
    destruct (String.eqb (kind m) "FIELD_DECL") eqn:Ef.
    + constructor; [|constructor]. split.
      * now apply String.eqb_eq.
      * apply in_or_app. left. rewrite subnodes_eq. now left.
    + destruct (PyStr.in_tuple (kind m) _); [|constructor].
      eapply Forall_impl; [|exact Hm].
      intros f [Hk Hin]. split; [exact Hk|].
      apply in_or_app. left. rewrite subnodes_eq. now right.
  - eapply Forall_impl; [|exact IHms].
    intros f [Hk Hin]. split; [exact Hk|].
    apply in_or_app. now right.
Qed.

(* ================================================================== *)
(** * The frame of the output *)

Lemma open_module_lines (module_name : string) (ls : list string) :
  Forall2 (same_or_opened module_name) (open_module module_name ls) ls.
Proof.
  assert (Hsame : forall l : list string,
            Forall2 (same_or_opened module_name) l l).
  { induction l as [|a l IH]; constructor; [now left | exact IH]. }
  induction ls as [|l ls IH]; simpl; [constructor|].
  destruct (PyStr.startswith l "namespace").
  - constructor; [now left | exact IH].
  - constructor; [now right | apply Hsame].
Qed.

Lemma open_module_one_opening (module_name : string) (ls : list string) :
  Forall (fun l => has_module_opening l = false) ls ->
  (length (filter has_module_opening (open_module module_name ls)) <= 1)%nat.
Proof.
  induction 1 as [|l ls Hl Hls IH]; cbn [open_module]; [cbn; lia|].
  destruct (PyStr.startswith l "namespace"); cbn [filter].
  - now rewrite Hl.
  - rewrite (no_match_filter _ _ Hls).
    destruct (has_module_opening (module_opening module_name ++ l));
      cbn [length]; lia.
Qed.

(** Whenever [generate] returns, the output is the include line of the
    file, the five fixed lines, one line for each fragment of the tree in
    the order of the walk, and the closing [}]: every line of the body is
    its fragment as it is or behind the module opening, and at most one
    line has the module opening. *)
Theorem generate_output_frame (root : AstNode) (out : list string) :
  generate (Some root) = Ok out ->
  exists body,
    out = (include_line (filename_of root) :: _initial_pybind_lines
             ++ body ++ ["}"])%list
    /\ Forall2 (same_or_opened "pcl") body (fragments root)
    /\ (length (filter has_module_opening body) <= 1)%nat
    /\ length out = (length (fragments root) + 7)%nat.
Proof.
  intro H.
  destruct (all_registered root) eqn:R.
  2:{ destruct (handle_node_raises root R (fresh root)) as (k & E & _).
      unfold generate, bind_init in H. unfold fresh in E.
      rewrite E in H. discriminate H. }
  rewrite (generate_registered root R) in H. injection H as <-.
  exists (open_module "pcl" (fragments root)).
  split; [reflexivity|].
  split; [apply open_module_lines|].
  split; [apply open_module_one_opening, fragments_plain|].
  unfold assemble, _initial_pybind_lines. cbn [app length].
  rewrite !length_app.
  rewrite (Forall2_length (open_module_lines "pcl" (fragments root))).
  cbn [length]. lia.
Qed.

Lemma generate_output_frame_witness :
  exists body,
    assemble "file.hpp" "pcl" (fragments (Trees.unit_of [Trees.struct_S_nested]))
    = (include_line (filename_of (Trees.unit_of [Trees.struct_S_nested]))
         :: _initial_pybind_lines ++ body ++ ["}"])%list
    /\ Forall2 (same_or_opened "pcl") body
               (fragments (Trees.unit_of [Trees.struct_S_nested]))
    /\ (length (filter has_module_opening body) <= 1)%nat
    /\ length (assemble "file.hpp" "pcl"
                 (fragments (Trees.unit_of [Trees.struct_S_nested])))
       = (length (fragments (Trees.unit_of [Trees.struct_S_nested])) + 7)%nat.
Proof.
  apply (generate_output_frame (Trees.unit_of [Trees.struct_S_nested])).
  vm_compute. reflexivity.
Defined.

(* ================================================================== *)
(** * [handle_final] called again *)

(** [handle_final] rewrites the fragment in the list of the object, so a
    second call finds the rewritten fragment as the first one that does not
    start with [namespace] and puts the module opening in front of it once
    more. *)
Theorem handle_final_twice_opens_twice (self : bind)
    (filename module_name : string) (pre post : list string) (x : string) :
  _linelist self = (pre ++ x :: post)%list ->
  forallb starts_with_namespace pre = true ->
  starts_with_namespace x = false ->
  _linelist (snd (handle_final self filename module_name))
  = (pre ++ (module_opening module_name ++ x)%string :: post)%list
  /\ fst (handle_final (snd (handle_final self filename module_name))
                       filename module_name)
     = (include_line filename :: _initial_pybind_lines
          ++ pre
          ++ (module_opening module_name
                ++ (module_opening module_name ++ x))%string :: post
          ++ ["}"])%list.
Proof.
  intros Hl Hpre Hx.
  assert (H1 : _linelist (snd (handle_final self filename module_name))
               = (pre ++ (module_opening module_name ++ x)%string :: post)%list).
  { unfold handle_final. cbn [snd _linelist set_linelist].
    now rewrite Hl, (open_module_first _ _ _ _ Hpre Hx). }
  split; [exact H1|].
  rewrite handle_final_assembles, H1. unfold assemble.
  rewrite (open_module_first module_name pre post _ Hpre); [|reflexivity].
  cbn [app]. now rewrite <- app_assoc.
Qed.

Lemma handle_final_twice_opens_twice_witness :
  let self := set_linelist ["namespace n{"; py_class "A"; ";"; "}"]
                           (at_item (Trees.unit_of [])) in
  fst (handle_final (snd (handle_final self "file.hpp" "pcl"))
                    "file.hpp" "pcl")
  = (include_line "file.hpp" :: _initial_pybind_lines
       ++ ["namespace n{"]
       ++ (module_opening "pcl" ++ (module_opening "pcl" ++ py_class "A"))%string
          :: [";"; "}"]
       ++ ["}"])%list.
Proof.
  intro self.
  exact (proj2 (handle_final_twice_opens_twice self "file.hpp" "pcl"
                  ["namespace n{"] [";"; "}"] (py_class "A")
                  eq_refl eq_refl eq_refl)).
Defined.

(* ================================================================== *)
(** * The file name of the include line *)

Lemma string_app_assoc (s t u : string) : (s ++ t) ++ u = s ++ (t ++ u).
Proof.
  induction s as [|a s IH]; simpl; [reflexivity | now rewrite IH].
Qed.

Lemma string_app_nil_r (s : string) : s ++ EmptyString = s.
Proof.
  induction s as [|a s IH]; simpl; [reflexivity | now rewrite IH].
Qed.

Lemma rev_string_app (s acc : string) :
  PyStr.rev_string acc s = PyStr.rev_string EmptyString s ++ acc.
Proof.
  revert acc. induction s as [|a s IH]; intro acc; simpl; [reflexivity|].
  rewrite (IH (String a acc)), (IH (String a EmptyString)).
  now rewrite string_app_assoc.
Qed.

Lemma has_char_app (c : ascii) (s t : string) :
  has_char c (s ++ t) = orb (has_char c s) (has_char c t).
Proof.
  induction s as [|a s IH]; simpl; [reflexivity|].
  now rewrite IH, orb_assoc.
Qed.

Lemma has_char_rev (c : ascii) (s : string) :
  has_char c (PyStr.rev_string EmptyString s) = has_char c s.
Proof.
  induction s as [|a s IH]; simpl; [reflexivity|].
  rewrite rev_string_app, has_char_app, IH. simpl.
  rewrite orb_false_r. apply orb_comm.
Qed.

Lemma ends_with_app_r (c : ascii) (s t : string) :
  t <> EmptyString -> ends_with c (s ++ t) = ends_with c t.
Proof.
  intro Ht. induction s as [|a s IH]; [reflexivity|].
  simpl append. rewrite ends_with_cons; [exact IH|].
  destruct s; [exact Ht | discriminate].
Qed.

Lemma split_from_cons (sep : ascii) (s cur : string) :
  exists p ps, PyStr.split_from sep cur s = p :: ps.
Proof.
  revert cur. induction s as [|a s IH]; intro cur; simpl.
  - now eexists _, _.
  - destruct (Ascii.eqb a sep); [now eexists _, _ | apply IH].
Qed.

Lemma split_from_last (sep : ascii) (s : string) :
  forall cur,
    has_char sep cur = false ->
    exists dir,
      PyStr.rev_string EmptyString cur ++ s
      = dir ++ last (PyStr.split_from sep cur s) EmptyString
      /\ has_char sep (last (PyStr.split_from sep cur s) EmptyString) = false
      /\ (dir = EmptyString \/ ends_with sep dir = true).
Proof.
  induction s as [|a s IH]; intros cur Hcur.
  - exists EmptyString. simpl.
    rewrite string_app_nil_r, has_char_rev. auto.
  - cbn [PyStr.split_from].
    destruct (Ascii.eqb a sep) eqn:Ea.
    + apply Ascii.eqb_eq in Ea. subst a.
      destruct (IH EmptyString eq_refl) as (dir & E & Hno & Hdir).
      destruct (split_from_cons sep s EmptyString) as (p & ps & Hp).
      rewrite last_cons, Hp.
      rewrite Hp in E, Hno.
      assert (Hl : forall d, last (p :: ps) d = last (p :: ps) EmptyString)
        by (intro d; now rewrite !last_cons).
      rewrite Hl.
      exists (PyStr.rev_string EmptyString cur ++ String sep dir).
      split; [|split].
      * rewrite string_app_assoc. simpl. simpl in E. now rewrite E.
      * exact Hno.
      * right. destruct Hdir as [->|Hd].
        -- apply ends_with_app.
        -- rewrite ends_with_app_r by discriminate.
           rewrite ends_with_cons; [exact Hd|].
           destruct dir; [discriminate Hd | discriminate].
    + destruct (IH (String a cur)) as (dir & E & Hno & Hdir).
      { simpl. now rewrite Ea, Hcur. }
      exists dir. split; [|split]; try assumption.
      rewrite <- E. cbn [PyStr.rev_string].
      rewrite (rev_string_app cur (String a EmptyString)), string_app_assoc.
      reflexivity.
Qed.

(** The file named in the include line is the part of the root's name
    behind its last [/]: the name is a directory part, empty or ending
    with [/], followed by that file name, and the file name has no [/].  A
    root name without [/] is used as it is. *)
Theorem include_names_file_without_directories (root : AstNode) :
  (exists dir,
      name root = dir ++ filename_of root
      /\ (dir = EmptyString \/ ends_with "/"%char dir = true))
  /\ has_char "/"%char (filename_of root) = false
  /\ (has_char "/"%char (name root) = false -> filename_of root = name root).
Proof.
  unfold filename_of, PyStr.split.
  destruct (split_from_last "/"%char (name root) EmptyString eq_refl)
    as (dir & E & Hno & Hdir).
  simpl in E.
  split; [exists dir; split; assumption|].
  split; [exact Hno|].
  intro Hname. destruct Hdir as [->|Hd].
  - now rewrite E at 2.
  - exfalso. rewrite E, has_char_app in Hname.
    apply orb_false_elim in Hname. destruct Hname as [Hn _].
    clear - Hd Hn.
    induction dir as [|a dir IH]; [discriminate Hd|].
    simpl in Hn. apply orb_false_elim in Hn. destruct Hn as [Ha Hn].
    destruct dir as [|b dir].
    + simpl in Hd. congruence.
    + apply IH; [|exact Hn]. exact Hd.
Qed.

Lemma include_names_file_without_directories_witness :
  filename_of (mkNode "TRANSLATION_UNIT" "file.hpp" EmptyString [] 0 0 0)
  = "file.hpp".
Proof.
  exact (proj2 (proj2 (include_names_file_without_directories
                         (mkNode "TRANSLATION_UNIT" "file.hpp" EmptyString
                                 [] 0 0 0)))
           eq_refl).
Defined.

(* ================================================================== *)
(** * A balanced output *)

Lemma generate_balanced_without_class_nodes_witness :
  exists out,
    generate
      (Some (Trees.unit_of
               [mkNode "NAMESPACE" "n" EmptyString
                  [Trees.struct_S_anonymous; Trees.function_f] 1 1 11]))
    = Ok out
    /\ balanced out = true.
Proof.
  apply generate_balanced_without_class_nodes; vm_compute; reflexivity.
Defined.
